(** * Planet-Lab backend: [backend/common/resource.py]

    A shallow embedding of the generic REST building blocks of
    [backend.common.resource] (the null-aware [RequestParser], the
    single-resource controller [SimpleResource], the creator
    [SimpleCreate], and the link controllers [ManyToOneLink] and
    [ManyToManyLink]), together with models of the two collaborators the
    module drives: the argument parser of flask_restful and the
    SQLAlchemy session. *)

From stdpp Require Import gmap strings list fin_maps pretty.

Set Default Proof Using "Type".
Open Scope string_scope.
Open Scope list_scope.

(** ** Python values, exceptions and the effect monad *)

(** The scalar values a decoded JSON body can hold (JSON [null] is
    [PNone]); identifiers taken from the URL are values of this type
    too. *)
Inductive pyval :=
  | PNone
  | PBool (b : bool)
  | PInt (z : Z)
  | PStr (s : string).

#[global] Instance pyval_eq_dec : EqDecision pyval.
Proof. solve_decision. Defined.

(** Python's [==] on these values: [bool] is a subclass of [int], and
    values of unrelated types (a string and a number, anything and
    [None]) compare unequal without raising. *)
Definition py_eq (a b : pyval) : bool :=
  match a, b with
  | PNone, PNone => true
  | PBool x, PBool y => bool_decide (x = y)
  | PInt x, PInt y => bool_decide (x = y)
  | PBool x, PInt y | PInt y, PBool x => bool_decide ((if x then 1%Z else 0%Z) = y)
  | PStr x, PStr y => bool_decide (x = y)
  | _, _ => false
  end.

(** [x is None] *)
Definition is_None (v : pyval) : bool :=
  match v with PNone => true | _ => false end.

(** [unicode(v)], the text of a value. *)
Definition text_type (v : pyval) : pyval :=
  match v with
  | PNone => PStr "None"
  | PBool true => PStr "True"
  | PBool false => PStr "False"
  | PInt z => PStr (pretty z)
  | PStr s => PStr s
  end.

Inductive exn_class :=
  | ValueError
  | TypeError
  | NotImplementedError
  | IntegrityError       (* sqlalchemy.exc.IntegrityError *)
  | OperationalError.    (* sqlalchemy.exc.OperationalError *)

#[global] Instance exn_class_eq_dec : EqDecision exn_class.
Proof. solve_decision. Defined.

(** A raised exception: an ordinary exception of some class with its
    message, or the HTTP error raised by
    [flask_restful.abort(400, message={field: msg})]. *)
Inductive exn :=
  | Exn (cls : exn_class) (msg : string)
  | BadRequest (field msg : string).

#[global] Instance exn_eq_dec : EqDecision exn.
Proof. solve_decision. Defined.

(** [str(error)] *)
Definition exn_str (e : exn) : string :=
  match e with
  | Exn _ msg => msg
  | BadRequest _ _ => "400: Bad Request"
  end.

Inductive outcome (A : Type) :=
  | Ret (a : A)
  | Raise (e : exn).
Arguments Ret {A} a.
Arguments Raise {A} e.

(** Computations over a state [S] that may raise: the state reached
    when an exception is raised is kept, as in Python. *)
Definition SE (S A : Type) : Type := S → outcome A * S.

Definition ret {S A} (a : A) : SE S A := λ s, (Ret a, s).

Definition raise {S A} (e : exn) : SE S A := λ s, (Raise e, s).

Definition bind {S A B} (m : SE S A) (k : A → SE S B) : SE S B :=
  λ s, match m s with
       | (Ret a, s') => k a s'
       | (Raise e, s') => (Raise e, s')
       end.

(** [try: m  except cls: h  else: k] *)
Definition try_except {S A B} (m : SE S A) (cls : exn_class)
    (h : SE S B) (k : A → SE S B) : SE S B :=
  λ s, match m s with
       | (Ret a, s') => k a s'
       | (Raise (Exn c msg), s') =>
           if decide (c = cls) then h s' else (Raise (Exn c msg), s')
       | (Raise e, s') => (Raise e, s')
       end.

(** [try: m  except Exception as error: h error] *)
Definition try_except_Exception {S A} (m : SE S A) (h : exn → SE S A) : SE S A :=
  λ s, match m s with
       | (Ret a, s') => (Ret a, s')
       | (Raise e, s') => h e s'
       end.

Notation "x <- m ;; k" := (bind m (λ x, k))
  (at level 100, m at next level, right associativity, only parsing).
Notation "m ;;; k" := (bind m (λ _, k))
  (at level 100, right associativity, only parsing).

(** What conversion functions may observe and change: a trace on which
    an instrumented conversion function can record that it ran.  The
    database session is not part of it. *)
Definition Trace : Type := list (string * pyval).

(** A Python function of one argument, as handed to [type=]. *)
Definition Callable : Type := pyval → SE Trace pyval.

(** The value of a [type=] keyword: [text_type], which is [unicode]
    applied to the argument (the default of flask_restful), or another
    function. *)
Inductive pytype :=
  | TextType
  | Function (f : Callable).

(** Calling the value of [type=] on one argument. *)
Definition call_type (t : pytype) : Callable :=
  match t with
  | TextType => λ v, ret (text_type v)
  | Function f => f
  end.

(** The request context: the decoded JSON body and the identity that
    [auth.current_user_id()] returns for the request. *)
Record Request := {
  json : gmap string pyval;
  user_id : pyval;
}.

(** ** flask_restful.reqparse

    The base parser, as in the releases of flask_restful the module was
    written for: a null value found in the body is handed to the type
    function of the argument like any other value (which is what the
    subclass below is there to intercept), and the first argument that
    fails aborts the request with a 400. *)

Module reqparse.

(** The keywords of [add_argument] that the module reads; every other
    keyword keeps its default ([default=None], [action='store'],
    [ignore=False], [dest=None], no [help]). *)
Record Kwargs := {
  kw_required : option bool;
  kw_type : option pytype;
}.

Record Argument := {
  arg_name : string;
  arg_required : bool;
  arg_type : pytype;
}.

(** [RequestParser.args] *)
Definition RequestParser : Type := list Argument.

(** [Argument(name, required=False, type=unicode)] appended to
    [self.args]. *)
Definition add_argument (self : RequestParser) (name : string) (kwargs : Kwargs)
    : RequestParser :=
  self ++ [{| arg_name := name;
              arg_required := default false (kw_required kwargs);
              arg_type := default TextType (kw_type kwargs) |}].

(** [Argument.convert]: every value, a null one too, goes through the
    type; under the default type a null becomes the text "None".  (The
    calls with three and two arguments that the library tries first
    fail on arity before any one-argument function runs.) *)
Definition convert (self : Argument) (value : pyval) : SE Trace pyval :=
  match arg_type self with
  | TextType => ret (text_type value)
  | Function f => f value
  end.

Definition missing_required : string :=
  "Missing required parameter in the JSON body or the post body or the query string".

(** [Argument.handle_validation_error] *)
Definition handle_validation_error {A} (self : Argument) (error : exn) : SE Trace A :=
  raise (BadRequest (arg_name self) (exn_str error)).

(** [Argument.parse]: a name present in the body is converted, and any
    exception of the conversion becomes a 400; an absent name is an
    error for a required argument and the default [None] otherwise. *)
Definition parse (self : Argument) (req : Request) : SE Trace pyval :=
  match json req !! arg_name self with
  | Some value =>
      try_except_Exception (convert self value) (handle_validation_error self)
  | None =>
      if arg_required self
      then handle_validation_error self (Exn ValueError missing_required)
      else ret PNone
  end.

(** [RequestParser.parse_args]: [namespace[arg.name] = arg.parse(req)]
    for each argument in order of declaration. *)
Fixpoint parse_args_from (args : list Argument) (req : Request)
    (namespace : gmap string pyval) : SE Trace (gmap string pyval) :=
  match args with
  | [] => ret namespace
  | arg :: rest =>
      v <- parse arg req ;;
      parse_args_from rest req (<[arg_name arg := v]> namespace)
  end.

Definition parse_args (self : RequestParser) (req : Request)
    : SE Trace (gmap string pyval) :=
  parse_args_from self req ∅.

End reqparse.

(** ** class RequestParser(flask_restful.reqparse.RequestParser) *)

Module RequestParser.
Import reqparse.

(** [new_type_func] of the required branch: "Raise an error on None
    values." *)
Definition new_type_func_required (type_func : pytype) : Callable :=
  λ arg,
    if is_None arg
    then raise (Exn ValueError "Required value may not be null")
    else call_type type_func arg.

(** [new_type_func] of the other branch: "Don't call type_func on
    None values." *)
Definition new_type_func_optional (type_func : pytype) : Callable :=
  λ arg,
    if is_None arg
    then ret arg
    else call_type type_func arg.

Definition add_argument (self : RequestParser) (name : string) (kwargs : Kwargs)
    : RequestParser :=
  let is_required := default false (kw_required kwargs) in
  let type_func := kw_type kwargs in
  let kwargs :=
    match type_func with
    | Some type_func =>
        let new_type_func :=
          if is_required
          then new_type_func_required type_func
          else new_type_func_optional type_func in
        {| kw_required := kw_required kwargs;
           kw_type := Some (Function new_type_func) |}
    | None => kwargs
    end in
  reqparse.add_argument self name kwargs.

(** A parser as a resource class declares it: a sequence of
    [parser.add_argument(name, **kwargs)] calls on a fresh parser. *)
Definition declare (decls : list (string * Kwargs)) : RequestParser :=
  foldl (λ p d, add_argument p d.1 d.2) [] decls.

End RequestParser.

(** ** The SQLAlchemy session *)

Module sqlalchemy.

Abbreviation Row := (gmap string pyval).

(** A table with the constraints the storage layer enforces on it:
    groups of columns that must be unique together, and columns that
    must hold the [id] of a row of another table. *)
Record Table := {
  uniques : list (list string);
  foreigns : list (string * string);
  rows : list Row;
}.

Definition with_rows (t : Table) (rs : list Row) : Table :=
  {| uniques := uniques t; foreigns := foreigns t; rows := rs |}.

Abbreviation DB := (gmap string Table).

Definition key_of (cols : list string) (r : Row) : list (option pyval) :=
  (λ c, r !! c) <$> cols.

(** No row of [others] agrees with [r] on a unique group of columns
    (a null is compared like any other value). *)
Definition unique_ok (t : Table) (others : list Row) (r : Row) : bool :=
  forallb (λ cols,
    negb (existsb (λ r', bool_decide (key_of cols r' = key_of cols r)) others))
    (uniques t).

(** Every foreign-key column of [r] is null or holds the [id] of a row
    of the table it refers to. *)
Definition foreign_ok (db : DB) (t : Table) (r : Row) : bool :=
  forallb (λ fk : string * string,
    match r !! fk.1 with
    | None | Some PNone => true
    | Some v =>
        match db !! fk.2 with
        | Some target => existsb (λ p, bool_decide (p !! "id" = Some v)) (rows target)
        | None => false
        end
    end) (foreigns t).

Definition no_such_table {A} : outcome A := Raise (Exn OperationalError "no such table").
Definition integrity_error {A} : outcome A := Raise (Exn IntegrityError "constraint failed").

(** INSERT *)
Definition db_insert (db : DB) (tbl : string) (r : Row) : outcome DB :=
  match db !! tbl with
  | None => no_such_table
  | Some t =>
      if unique_ok t (rows t) r && foreign_ok db t r
      then Ret (<[tbl := with_rows t (rows t ++ [r])]> db)
      else integrity_error
  end.

(** UPDATE of the row at position [i] *)
Definition db_update (db : DB) (tbl : string) (i : nat) (r : Row) : outcome DB :=
  match db !! tbl with
  | None => no_such_table
  | Some t =>
      if unique_ok t (delete i (rows t)) r && foreign_ok db t r
      then Ret (<[tbl := with_rows t (<[i := r]> (rows t))]> db)
      else integrity_error
  end.

(** DELETE ... WHERE on a table that no foreign key refers to, such as
    a join table, whose rows have no identity beyond their pair: the
    number of rows matched, and the database without them. *)
Definition db_delete (db : DB) (tbl : string) (cond : Row → bool) : outcome (nat * DB) :=
  match db !! tbl with
  | None => no_such_table
  | Some t =>
      Ret (length (filter (λ r, cond r) (rows t)),
           <[tbl := with_rows t (filter (λ r, ¬ cond r) (rows t))]> db)
  end.

(** Some row of the database holds the [id] of [r] under a foreign-key
    column that refers to the table [tbl]. *)
Definition referenced (db : DB) (tbl : string) (r : Row) : bool :=
  match r !! "id" with
  | None | Some PNone => false
  | Some v =>
      existsb (λ u : Table,
        existsb (λ fk : string * string,
          bool_decide (fk.2 = tbl)
          && existsb (λ c : Row, bool_decide (c !! fk.1 = Some v)) (rows u))
          (foreigns u))
        (map_to_list db).*2
  end.

(** DELETE ... WHERE on a table of resources: the storage layer rejects
    the statement, deleting nothing, when a row that would remain
    refers to one of the rows matched. *)
Definition db_delete_restrict (db : DB) (tbl : string) (cond : Row → bool)
    : outcome (nat * DB) :=
  match db !! tbl with
  | None => no_such_table
  | Some t =>
      let db' := <[tbl := with_rows t (filter (λ r, ¬ cond r) (rows t))]> db in
      if existsb (referenced db' tbl) (filter (λ r, cond r) (rows t))
      then integrity_error
      else Ret (length (filter (λ r, cond r) (rows t)), db')
  end.

(** The session: the committed database, the working copy of the open
    transaction if there is one, the objects passed to [add] and the
    loaded objects whose attributes were set, both waiting for the
    flush of the next commit. *)
Record Session := {
  committed : DB;
  txn : option DB;
  new : list (string * Row);
  dirty : list (string * nat * Row);
}.

(** The session a request starts with. *)
Definition fresh (db : DB) : Session :=
  {| committed := db; txn := None; new := []; dirty := [] |}.

(** What statements of the session see. *)
Definition view (s : Session) : DB := default (committed s) (txn s).

Definition in_txn (s : Session) (db : DB) : Session :=
  {| committed := committed s; txn := Some db; new := new s; dirty := dirty s |}.

(** [session.execute(table.insert().values(r))] *)
Definition execute_insert (tbl : string) (r : Row) : SE Session unit :=
  λ s, match db_insert (view s) tbl r with
       | Ret db' => (Ret (), in_txn s db')
       | Raise e => (Raise e, in_txn s (view s))
       end.

(** [session.execute(table.delete().where(cond))] on a join table,
    returning [res.rowcount]. *)
Definition execute_delete (tbl : string) (cond : Row → bool) : SE Session nat :=
  λ s, match db_delete (view s) tbl cond with
       | Ret (n, db') => (Ret n, in_txn s db')
       | Raise e => (Raise e, in_txn s (view s))
       end.

(** [query.delete(synchronize_session=False)] on the table of a
    resource, returning the number of rows deleted. *)
Definition query_delete (tbl : string) (cond : Row → bool) : SE Session nat :=
  λ s, match db_delete_restrict (view s) tbl cond with
       | Ret (n, db') => (Ret n, in_txn s db')
       | Raise e => (Raise e, in_txn s (view s))
       end.

(** [query.first()]: the first row matching, with its position. *)
Definition first (tbl : string) (cond : Row → bool) : SE Session (option (nat * Row)) :=
  λ s, match view s !! tbl with
       | Some t => (Ret (list_find (λ r, cond r) (rows t)), in_txn s (view s))
       | None => (no_such_table, in_txn s (view s))
       end.

(** [session.add(obj)] *)
Definition add (tbl : string) (r : Row) : SE Session unit :=
  λ s, (Ret (), {| committed := committed s; txn := txn s;
                   new := new s ++ [(tbl, r)]; dirty := dirty s |}).

(** The session's record of a loaded object whose attributes were
    set: its table, its position and its attributes now. *)
Definition modified (tbl : string) (i : nat) (r : Row) : SE Session unit :=
  λ s, (Ret (), {| committed := committed s; txn := txn s;
                   new := new s; dirty := dirty s ++ [(tbl, i, r)] |}).

Fixpoint flush_dirty (db : DB) (ds : list (string * nat * Row)) : outcome DB :=
  match ds with
  | [] => Ret db
  | (tbl, i, r) :: ds =>
      match db_update db tbl i r with
      | Ret db' => flush_dirty db' ds
      | Raise e => Raise e
      end
  end.

Fixpoint flush_new (db : DB) (ns : list (string * Row)) : outcome DB :=
  match ns with
  | [] => Ret db
  | (tbl, r) :: ns =>
      match db_insert db tbl r with
      | Ret db' => flush_new db' ns
      | Raise e => Raise e
      end
  end.

Definition flush (s : Session) : outcome DB :=
  match flush_dirty (view s) (dirty s) with
  | Ret db => flush_new db (new s)
  | Raise e => Raise e
  end.

(** [session.commit()]: flush, then make the working copy the
    committed database and close the transaction.  A flush that the
    storage layer rejects raises and rolls the transaction back. *)
Definition commit : SE Session unit :=
  λ s, match flush s with
       | Ret db => (Ret (), fresh db)
       | Raise e => (Raise e, fresh (committed s))
       end.

(** SQL expressions of a WHERE clause. *)
Inductive clause :=
  | CConst (b : bool)
  | CEq (col : string) (v : pyval)
  | CAnd (a b : clause).

Fixpoint eval (c : clause) (r : Row) : bool :=
  match c with
  | CConst b => b
  | CEq col v => bool_decide (r !! col = Some v)
  | CAnd a b => eval a r && eval b r
  end.

(** [sqlalchemy.and_(a, b)] *)
Definition and_ (a b : clause) : clause := CAnd a b.

End sqlalchemy.

(** ** The state of a request and the responses *)

(** [backend.db.session] together with the trace of the conversion
    functions. *)
Record World := {
  session : sqlalchemy.Session;
  trace : Trace;
}.

Definition lift_session {A} (m : SE sqlalchemy.Session A) : SE World A :=
  λ w, let (o, s) := m (session w) in (o, {| session := s; trace := trace w |}).

Definition lift_trace {A} (m : SE Trace A) : SE World A :=
  λ w, let (o, t) := m (trace w) in (o, {| session := session w; trace := t |}).

(** The world in which the handling of a request starts. *)
Definition start (db : gmap string sqlalchemy.Table) : World :=
  {| session := sqlalchemy.fresh db; trace := [] |}.

(** What a handler returns: [flask.Response(body, status)], a
    serializable dictionary, the children of a parent under the name of
    the link, or nothing ([None], an empty success). *)
Inductive response :=
  | Response (body : string) (status : nat)
  | Dict (d : gmap string pyval)
  | Children (key : string) (items : list (gmap string pyval))
  | Nothing.

(** [auth.current_user_id()] *)
Definition current_user_id (req : Request) : pyval := user_id req.

(** [for key, value in update.iteritems(): setattr(resource, key, value)] *)
Definition setattr_items (resource update : gmap string pyval) : gmap string pyval :=
  map_fold (λ key value res, <[key := value]> res) resource update.

(** ** class SimpleResource *)

Module SimpleResource.
Import sqlalchemy.

(** What the [query] method of a child class returns: a selection
    of rows of the table the resource is mapped to. *)
Record Query := {
  q_table : string;
  q_where : Row → bool;
}.

(** A child class: its [parser], its [query] over selectors of type
    [Sel], and its [as_dict]. *)
Record class (Sel : Type) := {
  parser : reqparse.RequestParser;
  query : Sel → Query;
  as_dict : Row → Row;
}.
Arguments parser {Sel} _.
Arguments query {Sel} _ _.
Arguments as_dict {Sel} _ _.

Section methods.
Context {Sel : Type} (self : class Sel).

Definition get (sel : Sel) : SE World response :=
  resource <- lift_session (first (q_table (query self sel)) (q_where (query self sel))) ;;
  match resource with
  | None => ret (Response "" 404)
  | Some (_, resource) => ret (Dict (as_dict self resource))
  end.

(** Setting the attributes of the loaded resource is what the session
    records ([modified]) and flushes at the commit. *)
Definition put (sel : Sel) (req : Request) : SE World response :=
  resource <- lift_session (first (q_table (query self sel)) (q_where (query self sel))) ;;
  match resource with
  | None => ret (Response "" 404)
  | Some (i, resource) =>
      update <- lift_trace (reqparse.parse_args (parser self) req) ;;
      let resource := setattr_items resource update in
      lift_session (modified (q_table (query self sel)) i resource) ;;;
      lift_session commit ;;;
      ret (Dict (as_dict self resource))
  end.

Definition delete (sel : Sel) : SE World response :=
  rows_deleted <- lift_session
    (query_delete (q_table (query self sel)) (q_where (query self sel))) ;;
  lift_session commit ;;;
  if bool_decide (rows_deleted = 0) then ret (Response "" 404) else ret Nothing.

End methods.
End SimpleResource.

(** ** class SimpleCreate *)

Module SimpleCreate.
Import sqlalchemy.

(** A child class: its [parser], the table its [resource_type] is
    mapped to, and its [as_dict].  An object of the resource type is
    the attributes it was built with: [resource_type] called
    with the keywords [args] is [args]. *)
Record class := {
  parser : reqparse.RequestParser;
  resource_type : string;
  as_dict : Row → Row;
}.

Definition post (self : class) (req : Request) : SE World response :=
  args <- lift_trace (reqparse.parse_args (parser self) req) ;;
  let args := <["creator_id" := current_user_id req]> args in
  let new_resource := args in
  lift_session (add (resource_type self) new_resource) ;;;
  lift_session commit ;;;
  ret (Dict (as_dict self new_resource)).

End SimpleCreate.

(** ** class ManyToOneLink *)

Module ManyToOneLink.
Import sqlalchemy.

Record class := {
  parent_id_name : string;
  child_link_name : string;
  resource_type : string;
  parent_resource_type : string;
  parser : reqparse.RequestParser;
  as_dict : Row → Row;
}.

Definition build_args (self : class) (parent_id : pyval) (req : Request)
    : SE World (gmap string pyval) :=
  args <- lift_trace (reqparse.parse_args (parser self) req) ;;
  let args := <["creator_id" := current_user_id req]> args in
  let args := <[parent_id_name self := parent_id]> args in
  ret args.

Definition create_resource (self : class) (args : gmap string pyval) : SE World response :=
  let new_resource := args in
  try_except
    (lift_session (add (resource_type self) new_resource) ;;;
     lift_session commit)
    IntegrityError
    (ret (Response "" 404))
    (λ _, ret (Dict (as_dict self new_resource))).

Definition post (self : class) (parent_id : pyval) (req : Request) : SE World response :=
  args <- build_args self parent_id req ;;
  create_resource self args.

(** The children of a parent are the rows of the child table that hold
    its id under [parent_id_name]. *)
Definition get (self : class) (parent_id : pyval) : SE World response :=
  parent <- lift_session
    (first (parent_resource_type self) (λ p, bool_decide (p !! "id" = Some parent_id))) ;;
  match parent with
  | None => ret (Response "" 404)
  | Some _ =>
      λ w, match view (session w) !! resource_type self with
           | Some t =>
               (Ret (Children (child_link_name self)
                  (as_dict self <$>
                     filter (λ child, child !! parent_id_name self = Some parent_id) (rows t))),
                w)
           | None => (no_such_table, w)
           end
  end.

End ManyToOneLink.

(** ** class ManyToManyLink *)

Module ManyToManyLink.
Import sqlalchemy.

(** What a child class can store in [left_id_name] and [right_id_name]:
    the name of a column of the join table, a string like
    [parent_id_name] and [child_link_name] of [ManyToOneLink], or the
    column object itself.  Both are accepted as keys of
    [insert().values({...})]. *)
Inductive attr :=
  | Name (s : string)
  | Column (s : string).

(** The column a key of [values({...})] stands for. *)
Definition column_of (a : attr) : string :=
  match a with Name s | Column s => s end.

(** Python's [a == v]: comparing a column object builds the SQL
    expression [column = v]; comparing a string is an ordinary
    comparison, whose boolean [and_] takes as a constant. *)
Definition attr_eq (a : attr) (v : pyval) : clause :=
  match a with
  | Name s => CConst (py_eq (PStr s) v)
  | Column c => CEq c v
  end.

Record class := {
  left_id_name : attr;
  right_id_name : attr;
  join_table : string;
}.

(** [{self.left_id_name: left_id, self.right_id_name: right_id}] *)
Definition link_row (self : class) (left_id right_id : pyval) : Row :=
  <[column_of (right_id_name self) := right_id]>
    (<[column_of (left_id_name self) := left_id]> ∅).

(** The association rows of a pair in a database: the rows of the join
    table that hold the two ids under the two columns. *)
Definition links (self : class) (left_id right_id : pyval) (db : DB) : list Row :=
  match db !! join_table self with
  | Some t =>
      filter (λ r, r !! column_of (left_id_name self) = Some left_id
                   ∧ r !! column_of (right_id_name self) = Some right_id) (rows t)
  | None => []
  end.

Definition put (self : class) (left_id right_id : pyval) : SE World response :=
  let insert := link_row self left_id right_id in
  try_except
    (lift_session (execute_insert (join_table self) insert) ;;;
     lift_session commit)
    IntegrityError
    (ret Nothing)
    (λ _, ret Nothing).

Definition delete (self : class) (left_id right_id : pyval) : SE World response :=
  let delete := and_ (attr_eq (left_id_name self) left_id)
                     (attr_eq (right_id_name self) right_id) in
  res <- lift_session (execute_delete (join_table self) (eval delete)) ;;
  lift_session commit ;;;
  if bool_decide (res = 0) then ret (Response "" 404) else ret Nothing.

End ManyToManyLink.

(** ** Sample resources

    Concrete conversion functions, schemas, tables and resource classes
    on which the properties below are instantiated. *)

Module Sample.
Import reqparse sqlalchemy.

(** A validator for integers that records every call on the trace and,
    like [int], raises [TypeError] on [None]. *)
Definition checked_int : Callable :=
  λ arg tr,
    let tr := tr ++ [("checked_int", arg)] in
    match arg with
    | PInt z => (Ret (PInt z), tr)
    | PBool b => (Ret (PInt (if b then 1 else 0)), tr)
    | PNone => (Raise (Exn TypeError "argument must be a number, not 'NoneType'"), tr)
    | PStr _ => (Raise (Exn ValueError "invalid literal"), tr)
    end.

Definition required_of (t : option pytype) : Kwargs :=
  {| kw_required := Some true; kw_type := t |}.

Definition optional_of (t : option pytype) : Kwargs :=
  {| kw_required := None; kw_type := t |}.

(** [{name: required string, age: optional int}] *)
Definition person_schema : list (string * Kwargs) :=
  [("name", required_of (Some TextType));
   ("age", optional_of (Some (Function checked_int)))].

(** A validator like [checked_int] that takes [None] for 0. *)
Definition lenient_int : Callable :=
  λ arg tr,
    match arg with
    | PNone => (Ret (PInt 0), tr ++ [("checked_int", arg)])
    | _ => checked_int arg tr
    end.

Definition lenient_person_schema : list (string * Kwargs) :=
  [("name", required_of (Some TextType));
   ("age", optional_of (Some (Function lenient_int)))].

Definition request_of (body : list (string * pyval)) : Request :=
  {| json := list_to_map body; user_id := PInt 7 |}.

(** A database with a table of missions, a table of quests whose
    names are unique and which refer to their mission, and the join
    table between users and quests, unique on the pair. *)
Definition mission (id : Z) (name : string) : Row :=
  <["name" := PStr name]> {["id" := PInt id]}.

Definition quest (id mission_id : Z) (name : string) (points : Z) : Row :=
  <["points" := PInt points]> (<["name" := PStr name]>
    (<["mission_id" := PInt mission_id]> {["id" := PInt id]})).

Definition link (user_id quest_id : Z) : Row :=
  <["quest_id" := PInt quest_id]> {["user_id" := PInt user_id]}.

Definition missions : Table :=
  {| uniques := []; foreigns := []; rows := [mission 1 "moon"] |}.

Definition quests : Table :=
  {| uniques := [["name"]]; foreigns := [("mission_id", "missions")];
     rows := [quest 10 1 "rocks" 3; quest 11 1 "dust" 4] |}.

Definition user_quests : Table :=
  {| uniques := [["user_id"; "quest_id"]]; foreigns := []; rows := [link 1 2] |}.

Definition db : DB :=
  <["user_quests" := user_quests]> (<["quests" := quests]> {["missions" := missions]}).

(** Serialization that returns the attributes as they are. *)
Definition plain (r : Row) : Row := r.

(** The quest resource, selected by id, whose schema declares the
    single optional field [points]. *)
Definition Quest : SimpleResource.class pyval :=
  {| SimpleResource.parser :=
       RequestParser.declare [("points", optional_of (Some (Function checked_int)))];
     SimpleResource.query id :=
       {| SimpleResource.q_table := "quests";
          SimpleResource.q_where r := bool_decide (r !! "id" = Some id) |};
     SimpleResource.as_dict := plain |}.

(** The quest resource under a schema that declares its [name]. *)
Definition QuestName : SimpleResource.class pyval :=
  {| SimpleResource.parser :=
       RequestParser.declare [("name", required_of (Some TextType))];
     SimpleResource.query := SimpleResource.query Quest;
     SimpleResource.as_dict := plain |}.

Definition QuestCreate : SimpleCreate.class :=
  {| SimpleCreate.parser := RequestParser.declare [("name", required_of (Some TextType))];
     SimpleCreate.resource_type := "quests";
     SimpleCreate.as_dict := plain |}.

(** A creator whose schema lets the body name a creator. *)
Definition QuestCreateOpen : SimpleCreate.class :=
  {| SimpleCreate.parser :=
       RequestParser.declare
         [("name", required_of (Some TextType));
          ("creator_id", optional_of (Some (Function checked_int)))];
     SimpleCreate.resource_type := "quests";
     SimpleCreate.as_dict := plain |}.

Definition MissionQuests : ManyToOneLink.class :=
  {| ManyToOneLink.parent_id_name := "mission_id";
     ManyToOneLink.child_link_name := "quests";
     ManyToOneLink.resource_type := "quests";
     ManyToOneLink.parent_resource_type := "missions";
     ManyToOneLink.parser := RequestParser.declare [("name", required_of (Some TextType))];
     ManyToOneLink.as_dict := plain |}.

(** The link between users and quests as a child class declares it,
    with the names of the two columns. *)
Definition UserQuests : ManyToManyLink.class :=
  {| ManyToManyLink.left_id_name := ManyToManyLink.Name "user_id";
     ManyToManyLink.right_id_name := ManyToManyLink.Name "quest_id";
     ManyToManyLink.join_table := "user_quests" |}.

(** The same link with the column objects in place of their names. *)
Definition UserQuestsByColumn : ManyToManyLink.class :=
  {| ManyToManyLink.left_id_name := ManyToManyLink.Column "user_id";
     ManyToManyLink.right_id_name := ManyToManyLink.Column "quest_id";
     ManyToManyLink.join_table := "user_quests" |}.




(** A database whose join table also requires its quests to exist. *)
Definition guarded_user_quests : Table :=
  {| uniques := [["user_id"; "quest_id"]]; foreigns := [("quest_id", "quests")];
     rows := [link 1 10] |}.

Definition guarded_db : DB := <["user_quests" := guarded_user_quests]> db.

End Sample.

(** * Properties *)

(** ** The definitions at work *)

Example py_eq_name_and_id : py_eq (PStr "user_id") (PInt 1) = false.
Proof. reflexivity. Qed.

Example py_eq_bool_is_int : py_eq (PBool true) (PInt 1) = true.
Proof. reflexivity. Qed.

Example text_of_negative : text_type (PInt (-12)) = PStr "-12".
Proof. reflexivity. Qed.

(** [checked_int] raises on [None], and says on the trace that it was
    called. *)
Example checked_int_on_None :
  Sample.checked_int PNone []
  = (Raise (Exn TypeError "argument must be a number, not 'NoneType'"),
     [("checked_int", PNone)]).
Proof. reflexivity. Qed.

(** A value that is not null does go through the conversion. *)
Example person_with_age :
  reqparse.parse_args (RequestParser.declare Sample.person_schema)
    (Sample.request_of [("name", PStr "Alice"); ("age", PInt 5)]) []
  = (Ret (<["age" := PInt 5]> {["name" := PStr "Alice"]}), [("checked_int", PInt 5)]).
Proof. by vm_compute. Qed.

(** A conversion that fails is reported as a 400 on its field. *)
Example person_with_bad_age :
  reqparse.parse_args (RequestParser.declare Sample.person_schema)
    (Sample.request_of [("name", PStr "Alice"); ("age", PStr "five")]) []
  = (Raise (BadRequest "age" "invalid literal"), [("checked_int", PStr "five")]).
Proof. by vm_compute. Qed.

(** The children of the mission 1. *)
Example children_of_mission :
  (ManyToOneLink.get Sample.MissionQuests (PInt 1) (start Sample.db)).1
  = Ret (Children "quests" [Sample.quest 10 1 "rocks" 3; Sample.quest 11 1 "dust" 4]).
Proof. by vm_compute. Qed.

(** Deleting the quest 10 leaves the quest 11. *)
Example delete_quest :
  SimpleResource.delete Sample.Quest (PInt 10) (start Sample.db)
  = (Ret Nothing,
     start (<["quests" := sqlalchemy.with_rows Sample.quests [Sample.quest 11 1 "dust" 4]]>
              Sample.db)).
Proof. by vm_compute. Qed.

(** ** The argument parser *)

Section parser_facts.
Import reqparse.

Lemma add_argument_snoc p name kw :
  RequestParser.add_argument p name kw = p ++ RequestParser.add_argument [] name kw.
Proof.
  unfold RequestParser.add_argument, add_argument.
  by destruct (kw_type kw).
Qed.

Lemma declare_from p decls :
  foldl (λ p d, RequestParser.add_argument p d.1 d.2) p decls
  = p ++ RequestParser.declare decls.
Proof.
  unfold RequestParser.declare.
  induction decls as [|d decls IH] using rev_ind; simpl.
  - by rewrite app_nil_r.
  - rewrite !foldl_app. simpl. rewrite IH.
    rewrite (add_argument_snoc (p ++ _)), (add_argument_snoc (foldl _ _ _)).
    by rewrite app_assoc.
Qed.

Lemma declare_app a b :
  RequestParser.declare (a ++ b) = RequestParser.declare a ++ RequestParser.declare b.
Proof.
  unfold RequestParser.declare at 1. rewrite foldl_app.
  fold (RequestParser.declare a). apply declare_from.
Qed.

Lemma declare_cons d decls :
  RequestParser.declare (d :: decls)
  = RequestParser.declare [d] ++ RequestParser.declare decls.
Proof. apply (declare_app [d]). Qed.

Lemma declare_names decls :
  arg_name <$> RequestParser.declare decls = decls.*1.
Proof.
  induction decls as [|[n kw] decls IH]; [done|].
  rewrite declare_cons, fmap_app, IH.
  unfold RequestParser.declare, RequestParser.add_argument, add_argument. simpl.
  by destruct (kw_type kw).
Qed.

Lemma parse_args_from_app a b req ns tr :
  parse_args_from (a ++ b) req ns tr
  = match parse_args_from a req ns tr with
    | (Ret ns', tr') => parse_args_from b req ns' tr'
    | (Raise e, tr') => (Raise e, tr')
    end.
Proof.
  revert ns tr. induction a as [|x a IH]; intros ns tr; simpl; [done|].
  unfold bind. destruct (parse x req tr) as [[v|e] tr1]; [apply IH|done].
Qed.

(** Whatever a conversion raises leaves [Argument.parse] as a 400 that
    names the argument. *)
Lemma parse_raises_400 arg req tr e tr' :
  parse arg req tr = (Raise e, tr') → ∃ msg, e = BadRequest (arg_name arg) msg.
Proof.
  unfold parse, try_except_Exception, handle_validation_error, raise, ret.
  destruct (json req !! arg_name arg) as [v|].
  - destruct (convert arg v tr) as [[r|e0] tr0]; intros [= <- <-]; eauto.
  - destruct (arg_required arg); intros [= <- <-]; eauto.
Qed.

Lemma parse_args_from_raises_400 args req ns tr e tr' :
  parse_args_from args req ns tr = (Raise e, tr') →
  ∃ field msg, e = BadRequest field msg ∧ field ∈ arg_name <$> args.
Proof.
  revert ns tr. induction args as [|x args IH]; intros ns tr; simpl.
  - by intros [= ].
  - unfold bind. destruct (parse x req tr) as [[v|e0] tr0] eqn:Hx.
    + intros H. destruct (IH _ _ H) as (f & m & -> & Hin).
      exists f, m. split; [done|]. by apply elem_of_cons; right.
    + intros [= <- <-]. destruct (parse_raises_400 _ _ _ _ _ Hx) as [m ->].
      exists (arg_name x), m. split; [done|]. by apply elem_of_cons; left.
Qed.

(** An argument absent from the body parses to [None] or not at all. *)
Lemma parse_absent arg req tr v tr' :
  json req !! arg_name arg = None →
  parse arg req tr = (Ret v, tr') → v = PNone ∧ arg_required arg = false.
Proof.
  unfold parse, handle_validation_error, raise, ret. intros ->.
  destruct (arg_required arg); by intros [= <- <-].
Qed.

(** The namespace of a parse that returns: the declared names are
    bound, the other names are as they were. *)
Lemma parse_args_from_other args req ns0 tr ns tr' n :
  parse_args_from args req ns0 tr = (Ret ns, tr') →
  n ∉ arg_name <$> args → ns !! n = ns0 !! n.
Proof.
  revert ns0 tr. induction args as [|x args IH]; intros ns0 tr; simpl.
  - by intros [= <- <-].
  - unfold bind. destruct (parse x req tr) as [[v|e0] tr0]; [|done].
    intros H Hn. apply not_elem_of_cons in Hn as [Hne Hn].
    rewrite (IH _ _ H Hn). by rewrite lookup_insert_ne.
Qed.

Lemma parse_args_from_bound args req ns0 tr ns tr' n :
  parse_args_from args req ns0 tr = (Ret ns, tr') →
  n ∈ arg_name <$> args → is_Some (ns !! n).
Proof.
  revert ns0 tr. induction args as [|x args IH]; intros ns0 tr; simpl.
  - intros _ Hn. by apply elem_of_nil in Hn.
  - unfold bind. destruct (parse x req tr) as [[v|e0] tr0]; [|done].
    intros H Hn. destruct (decide (n ∈ arg_name <$> args)) as [Hin|Hnin].
    + by apply (IH _ _ H).
    + rewrite (parse_args_from_other _ _ _ _ _ _ _ H Hnin).
      apply elem_of_cons in Hn as [->|?]; [|done].
      rewrite lookup_insert_eq. eauto.
Qed.

Lemma parse_args_from_absent args req ns0 tr ns tr' n :
  parse_args_from args req ns0 tr = (Ret ns, tr') →
  n ∈ arg_name <$> args → json req !! n = None → ns !! n = Some PNone.
Proof.
  revert ns0 tr. induction args as [|x args IH]; intros ns0 tr; simpl.
  - intros _ Hn. by apply elem_of_nil in Hn.
  - unfold bind. destruct (parse x req tr) as [[v|e0] tr0] eqn:Hx; [|done].
    intros H Hn Habs. destruct (decide (n ∈ arg_name <$> args)) as [Hin|Hnin].
    + by apply (IH _ _ H).
    + rewrite (parse_args_from_other _ _ _ _ _ _ _ H Hnin).
      apply elem_of_cons in Hn as [->|?]; [|done].
      rewrite lookup_insert_eq.
      by destruct (parse_absent _ _ _ _ _ Habs Hx) as [-> _].
Qed.

(** With nothing in the body, a parser whose arguments are all
    optional returns, and runs no conversion. *)
Lemma parse_args_from_empty args req ns0 tr :
  json req = ∅ → Forall (λ a, arg_required a = false) args →
  ∃ ns, parse_args_from args req ns0 tr = (Ret ns, tr).
Proof.
  intros Hreq Hopt. revert ns0. induction Hopt as [|x args Hx _ IH]; intros ns0; simpl.
  - by eexists.
  - unfold bind, parse. rewrite Hreq, lookup_empty, Hx. simpl. apply IH.
Qed.

End parser_facts.

Section parser_claims.
Import reqparse.

(** C1, as stated: the message of the error is not the lower-case
    "required value may not be null".  On the schema with the single
    required field [name] converted by [checked_int] and the body
    [{name: null}], the parse fails with the message of the source,
    "Required value may not be null". *)
Lemma required_null_message_differs :
  parse_args
    (RequestParser.declare
       [("name", Sample.required_of (Some (Function Sample.checked_int)))])
    (Sample.request_of [("name", PNone)]) []
    = (Raise (BadRequest "name" "Required value may not be null"), [])
  ∧ parse_args
    (RequestParser.declare
       [("name", Sample.required_of (Some (Function Sample.checked_int)))])
    (Sample.request_of [("name", PNone)]) []
    ≠ (Raise (BadRequest "name" "required value may not be null"), []).
Proof. split; [by vm_compute|]. vm_compute. by intros [= ]. Qed.

(** C1 (amended): a required field [F] with a conversion function whose
    raw value is null makes the parse fail with a 400.  The check of [F]
    itself raises "Required value may not be null" for [F] without
    running the conversion function (whatever that function is, the
    trace is as before), the whole parse never returns, and the error is
    the one of [F] as soon as the fields declared before it parse. *)
Theorem required_null_is_rejected
    (pre post : list (string * Kwargs)) (F : string) (kw : Kwargs)
    (type_func : pytype) (req : Request) (tr : Trace) :
  kw_required kw = Some true →
  kw_type kw = Some type_func →
  json req !! F = Some PNone →
  let schema := RequestParser.declare (pre ++ (F, kw) :: post) in
  parse_args (RequestParser.declare [(F, kw)]) req tr
    = (Raise (BadRequest F "Required value may not be null"), tr)
  ∧ (∃ field msg, (parse_args schema req tr).1 = Raise (BadRequest field msg))
  ∧ (∀ ns tr', parse_args (RequestParser.declare pre) req tr = (Ret ns, tr') →
       parse_args schema req tr
         = (Raise (BadRequest F "Required value may not be null"), tr')).
Proof.
  intros Hreq Hty Hnull schema.
  assert (HF : ∀ ns0 tr0, parse_args_from (RequestParser.declare [(F, kw)]) req ns0 tr0
    = (Raise (BadRequest F "Required value may not be null"), tr0)).
  { intros ns0 tr0.
    unfold RequestParser.declare, RequestParser.add_argument, add_argument. simpl.
    rewrite Hty, Hreq. simpl. unfold bind, parse. simpl. by rewrite Hnull. }
  assert (Hthen : ∀ ns tr', parse_args (RequestParser.declare pre) req tr = (Ret ns, tr') →
       parse_args schema req tr
         = (Raise (BadRequest F "Required value may not be null"), tr')).
  { intros ns tr' Hpre. unfold schema, parse_args in *.
    rewrite declare_app, parse_args_from_app, Hpre.
    by rewrite declare_cons, parse_args_from_app, HF. }
  split; [apply HF|]. split; [|done].
  destruct (parse_args (RequestParser.declare pre) req tr) as [[ns|e] tr'] eqn:Hpre.
  - rewrite (Hthen _ _ eq_refl). simpl. eauto.
  - unfold schema, parse_args in *.
    rewrite declare_app, parse_args_from_app, Hpre. simpl.
    destruct (parse_args_from_raises_400 _ _ _ _ _ _ Hpre) as (f & m & -> & _). eauto.
Qed.

(** The scenario of the specification: [{name: null, age: 5}] fails
    validation on [name]. *)
Lemma required_null_is_rejected_witness :
  parse_args (RequestParser.declare Sample.person_schema)
    (Sample.request_of [("name", PNone); ("age", PInt 5)]) []
    = (Raise (BadRequest "name" "Required value may not be null"), []).
Proof.
  exact (proj2 (proj2 (required_null_is_rejected []
           [("age", Sample.optional_of (Some (Function Sample.checked_int)))]
           "name" (Sample.required_of (Some TextType)) TextType
           (Sample.request_of [("name", PNone); ("age", PInt 5)]) []
           eq_refl eq_refl eq_refl)) ∅ [] eq_refl).
Defined.

(** C2: an optional field [F] with a conversion function whose raw value
    is null parses to null.  The conversion function is not run: for
    every such function, also one that raises on [None] or records its
    calls, the parse of [F] returns [None] and leaves the trace as it
    was; the result of a whole parse binds [F] to [None]; and the parse
    is the same whatever the conversion function of [F] is. *)
Theorem optional_null_skips_conversion
    (pre post : list (string * Kwargs)) (F : string) (kw : Kwargs)
    (type_func : pytype) (req : Request) (tr : Trace) :
  default false (kw_required kw) = false →
  kw_type kw = Some type_func →
  json req !! F = Some PNone →
  let schema := RequestParser.declare (pre ++ (F, kw) :: post) in
  parse_args (RequestParser.declare [(F, kw)]) req tr = (Ret {[F := PNone]}, tr)
  ∧ (∀ ns tr', F ∉ post.*1 →
       parse_args schema req tr = (Ret ns, tr') → ns !! F = Some PNone)
  ∧ (∀ other_func,
       parse_args (RequestParser.declare
         (pre ++ (F, {| kw_required := kw_required kw;
                        kw_type := Some other_func |}) :: post)) req tr
       = parse_args schema req tr).
Proof.
  intros Hreq Hty Hnull schema.
  assert (HF : ∀ kw' f, kw_required kw' = kw_required kw → kw_type kw' = Some f →
    ∀ ns0 tr0, parse_args_from (RequestParser.declare [(F, kw')]) req ns0 tr0
               = (Ret (<[F := PNone]> ns0), tr0)).
  { intros kw' f Hr Ht ns0 tr0.
    unfold RequestParser.declare, RequestParser.add_argument, add_argument. simpl.
    rewrite Ht, Hr, Hreq. simpl. unfold bind, parse. simpl. by rewrite Hnull. }
  split; [apply (HF kw type_func eq_refl Hty)|]. split.
  - intros ns tr' Hpost. unfold schema, parse_args.
    rewrite declare_app, parse_args_from_app.
    destruct (parse_args_from (RequestParser.declare pre) req ∅ tr) as [[ns1|e] tr1]; [|done].
    rewrite declare_cons, parse_args_from_app, (HF kw type_func eq_refl Hty).
    intros H. rewrite (parse_args_from_other _ _ _ _ _ _ F H).
    + by rewrite lookup_insert_eq.
    + by rewrite declare_names.
  - intros g. unfold schema, parse_args.
    rewrite !declare_app, !parse_args_from_app.
    destruct (parse_args_from (RequestParser.declare pre) req ∅ tr) as [[ns1|e] tr1]; [|done].
    rewrite (declare_cons (F, kw)), (declare_cons (F, _)), !parse_args_from_app.
    rewrite (HF kw type_func eq_refl Hty).
    by rewrite (HF {| kw_required := kw_required kw; kw_type := Some g |} g eq_refl eq_refl).
Qed.

(** [checked_int] raises on [None] and records its calls; the field
    [age] it converts is optional, and a null [age] parses to [None]
    with no call recorded. *)
Lemma optional_null_skips_conversion_witness :
  parse_args
    (RequestParser.declare
       [("age", Sample.optional_of (Some (Function Sample.checked_int)))])
    (Sample.request_of [("name", PStr "Alice"); ("age", PNone)]) []
  = (Ret {["age" := PNone]}, []).
Proof.
  exact (proj1 (optional_null_skips_conversion
           [("name", Sample.required_of (Some TextType))] []
           "age" (Sample.optional_of (Some (Function Sample.checked_int)))
           (Function Sample.checked_int)
           (Sample.request_of [("name", PStr "Alice"); ("age", PNone)]) []
           eq_refl eq_refl eq_refl)).
Defined.

(** The scenario of the specification: [{name: "Alice", age: null}]
    parses to [{name: "Alice", age: null}], and [checked_int], which
    raises on [None], was not called. *)
Lemma person_with_null_age :
  parse_args (RequestParser.declare Sample.person_schema)
    (Sample.request_of [("name", PStr "Alice"); ("age", PNone)]) []
  = (Ret (<["age" := PNone]> {["name" := PStr "Alice"]}), []).
Proof. by vm_compute. Qed.

(** C3, as stated: a required field without a conversion function whose
    raw value is null is not rejected (the parse returns), and a raw
    value that is not a string does not reach the result unchanged:
    null becomes the text "None" and 5 the text "5". *)
Lemma untyped_field_counterexample :
  parse_args (RequestParser.declare [("x", Sample.required_of None)])
    (Sample.request_of [("x", PNone)]) []
    = (Ret {["x" := PStr "None"]}, [])
  ∧ parse_args (RequestParser.declare [("x", Sample.required_of None)])
    (Sample.request_of [("x", PInt 5)]) []
    = (Ret {["x" := PStr "5"]}, []).
Proof. split; by vm_compute. Qed.

(** C3 (amended): a field [F] declared without a conversion function is
    handed to the base parser as it is, under the default text type.  A
    raw value that is a string reaches the result unchanged, whether [F]
    is required or not; and when [F] is required and absent from the
    body the parse fails with a 400, the one of [F] as soon as the
    fields declared before it parse. *)
Theorem untyped_field_passes_text
    (pre post : list (string * Kwargs)) (F : string) (kw : Kwargs)
    (req : Request) (tr : Trace) :
  kw_type kw = None →
  let schema := RequestParser.declare (pre ++ (F, kw) :: post) in
  RequestParser.add_argument [] F kw = reqparse.add_argument [] F kw
  ∧ (∀ s, json req !! F = Some (PStr s) →
       parse_args (RequestParser.declare [(F, kw)]) req tr = (Ret {[F := PStr s]}, tr)
       ∧ ∀ ns tr', F ∉ post.*1 →
           parse_args schema req tr = (Ret ns, tr') → ns !! F = Some (PStr s))
  ∧ (kw_required kw = Some true → json req !! F = None →
       parse_args (RequestParser.declare [(F, kw)]) req tr
         = (Raise (BadRequest F missing_required), tr)
       ∧ (∃ field msg, (parse_args schema req tr).1 = Raise (BadRequest field msg))
       ∧ ∀ ns tr', parse_args (RequestParser.declare pre) req tr = (Ret ns, tr') →
           parse_args schema req tr = (Raise (BadRequest F missing_required), tr')).
Proof.
  intros Hty schema.
  assert (Hdecl : RequestParser.declare [(F, kw)]
    = [{| arg_name := F; arg_required := default false (kw_required kw);
          arg_type := TextType |}]).
  { unfold RequestParser.declare, RequestParser.add_argument, add_argument. simpl.
    rewrite Hty. simpl. by rewrite Hty. }
  split; [|split].
  - unfold RequestParser.add_argument. rewrite Hty. done.
  - intros s Hs.
    assert (HF : ∀ ns0 tr0, parse_args_from (RequestParser.declare [(F, kw)]) req ns0 tr0
      = (Ret (<[F := PStr s]> ns0), tr0)).
    { intros ns0 tr0. rewrite Hdecl. simpl. unfold bind, parse. simpl. by rewrite Hs. }
    split; [apply HF|].
    intros ns tr' Hpost. unfold schema, parse_args.
    rewrite declare_app, parse_args_from_app.
    destruct (parse_args_from (RequestParser.declare pre) req ∅ tr) as [[ns1|e] tr1]; [|done].
    rewrite declare_cons, parse_args_from_app, HF.
    intros H. rewrite (parse_args_from_other _ _ _ _ _ _ F H).
    + by rewrite lookup_insert_eq.
    + by rewrite declare_names.
  - intros Hreq Habs.
    assert (HF : ∀ ns0 tr0, parse_args_from (RequestParser.declare [(F, kw)]) req ns0 tr0
      = (Raise (BadRequest F missing_required), tr0)).
    { intros ns0 tr0. rewrite Hdecl, Hreq. simpl. unfold bind, parse. simpl.
      by rewrite Habs. }
    assert (Hthen : ∀ ns tr',
      parse_args (RequestParser.declare pre) req tr = (Ret ns, tr') →
      parse_args schema req tr = (Raise (BadRequest F missing_required), tr')).
    { intros ns tr' Hpre. unfold schema, parse_args in *.
      rewrite declare_app, parse_args_from_app, Hpre.
      by rewrite declare_cons, parse_args_from_app, HF. }
    split; [apply HF|]. split; [|done].
    destruct (parse_args (RequestParser.declare pre) req tr) as [[ns|e] tr'] eqn:Hpre.
    + rewrite (Hthen _ _ eq_refl). simpl. eauto.
    + unfold schema, parse_args in *.
      rewrite declare_app, parse_args_from_app, Hpre. simpl.
      destruct (parse_args_from_raises_400 _ _ _ _ _ _ Hpre) as (f & m & -> & _). eauto.
Qed.

Lemma untyped_field_passes_text_witness :
  parse_args (RequestParser.declare [("x", Sample.required_of None)])
    (Sample.request_of [("x", PStr "abc")]) []
    = (Ret {["x" := PStr "abc"]}, [])
  ∧ parse_args (RequestParser.declare [("x", Sample.required_of None)])
    (Sample.request_of []) []
    = (Raise (BadRequest "x" missing_required), []).
Proof.
  split.
  - exact (proj1 (proj1 (proj2 (untyped_field_passes_text [] [] "x"
             (Sample.required_of None) (Sample.request_of [("x", PStr "abc")]) []
             eq_refl)) "abc" eq_refl)).
  - exact (proj1 (proj2 (proj2 (untyped_field_passes_text [] [] "x"
             (Sample.required_of None) (Sample.request_of []) []
             eq_refl)) eq_refl eq_refl)).
Defined.

End parser_claims.

(** ** The storage layer *)

Section storage_facts.
Import sqlalchemy.

Lemma filter_none {A} (P : A → Prop) `{!∀ x, Decision (P x)} (l : list A) :
  Forall (λ x, ¬ P x) l → filter P l = [].
Proof.
  induction 1 as [|x l Hx _ IH]; [done|].
  by rewrite filter_cons_False.
Qed.

Lemma filter_all {A} (P : A → Prop) `{!∀ x, Decision (P x)} (l : list A) :
  Forall P l → filter P l = l.
Proof.
  induction 1 as [|x l Hx _ IH]; [done|].
  rewrite filter_cons_True by done. by rewrite IH.
Qed.

Lemma with_rows_id t : with_rows t (rows t) = t.
Proof. by destruct t. Qed.

Lemma view_fresh db : view (fresh db) = db.
Proof. done. Qed.

(** A commit with nothing to flush makes the working copy the
    committed database and closes the transaction. *)
Lemma commit_plain (db0 db : DB) :
  commit {| committed := db0; txn := Some db; new := []; dirty := [] |}
  = (Ret (), fresh db).
Proof. done. Qed.

(** A commit that flushes one loaded object, or one new object. *)
Lemma commit_dirty_one (db0 db : DB) tbl i (r : Row) :
  commit {| committed := db0; txn := Some db; new := []; dirty := [(tbl, i, r)] |}
  = match db_update db tbl i r with
    | Ret db' => (Ret (), fresh db')
    | Raise e => (Raise e, fresh db0)
    end.
Proof.
  unfold commit, flush, view. simpl. by destruct (db_update db tbl i r).
Qed.

Lemma commit_new_one (db0 : DB) (tx : option DB) tbl (r : Row) :
  commit {| committed := db0; txn := tx; new := [(tbl, r)]; dirty := [] |}
  = match db_insert (default db0 tx) tbl r with
    | Ret db' => (Ret (), fresh db')
    | Raise e => (Raise e, fresh db0)
    end.
Proof.
  unfold commit, flush, view. simpl. by destruct (db_insert (default db0 tx) tbl r).
Qed.

(** Nothing matches: [first] finds no row. *)
Lemma first_none tbl (cond : Row → bool) (db : DB) t :
  db !! tbl = Some t → Forall (λ r, cond r = false) (rows t) →
  first tbl cond (fresh db) = (Ret None, in_txn (fresh db) db).
Proof.
  intros Hdb Hnone. unfold first. rewrite view_fresh, Hdb.
  replace (list_find (λ r, cond r) (rows t)) with (@None (nat * Row)); [done|].
  symmetry. apply list_find_None.
  eapply Forall_impl; [done|]. simpl. intros r ->. by intros [].
Qed.

Lemma first_some tbl (cond : Row → bool) (db : DB) t i r :
  db !! tbl = Some t → list_find (λ r, cond r) (rows t) = Some (i, r) →
  first tbl cond (fresh db) = (Ret (Some (i, r)), in_txn (fresh db) db).
Proof. intros Hdb Hfind. unfold first. by rewrite view_fresh, Hdb, Hfind. Qed.

(** Nothing matches: the bulk delete removes nothing. *)
Lemma query_delete_none tbl (cond : Row → bool) (db : DB) t :
  db !! tbl = Some t → Forall (λ r, cond r = false) (rows t) →
  query_delete tbl cond (fresh db) = (Ret 0, in_txn (fresh db) db).
Proof.
  intros Hdb Hnone. unfold query_delete, db_delete_restrict. rewrite view_fresh, Hdb.
  rewrite (filter_none (λ r, cond r)), (filter_all (λ r, ¬ cond r)); simpl.
  - by rewrite with_rows_id, insert_id.
  - eapply Forall_impl; [done|]. simpl. intros r ->. by intros [].
  - eapply Forall_impl; [done|]. simpl. intros r ->. by intros [].
Qed.

End storage_facts.

(** ** The single-resource controller *)

Section single_resource_claims.
Import sqlalchemy SimpleResource.
Context {Sel : Type} (self : class Sel).

(** C9: when the selector matches no row of the table, [get], [put] and
    [delete] each return the empty 404 response; no exception is raised.
    [put] answers before it looks at the body: the parser is not run
    (the trace is as before) and the body can be anything.  None of the
    three changes the committed database. *)
Theorem missing_resource_is_404 (sel : Sel) (req : Request)
    (db : DB) (t : Table) (tr : Trace) :
  db !! q_table (query self sel) = Some t →
  Forall (λ r, q_where (query self sel) r = false) (rows t) →
  let w := {| session := fresh db; trace := tr |} in
  get self sel w
    = (Ret (Response "" 404), {| session := in_txn (fresh db) db; trace := tr |})
  ∧ put self sel req w
    = (Ret (Response "" 404), {| session := in_txn (fresh db) db; trace := tr |})
  ∧ delete self sel w
    = (Ret (Response "" 404), {| session := fresh db; trace := tr |}).
Proof.
  intros Hdb Hnone w. split; [|split].
  - unfold get, bind, lift_session. simpl.
    by rewrite (first_none _ _ _ _ Hdb Hnone).
  - unfold put, bind, lift_session. simpl.
    by rewrite (first_none _ _ _ _ Hdb Hnone).
  - unfold delete, bind, lift_session. simpl.
    by rewrite (query_delete_none _ _ _ _ Hdb Hnone).
Qed.

(** The loop of [setattr] calls leaves on the resource the parsed
    values where there are any and the attributes it had elsewhere. *)
Lemma setattr_items_union (resource update : gmap string pyval) :
  setattr_items resource update = update ∪ resource.
Proof.
  unfold setattr_items.
  apply (map_fold_weak_ind (λ res m, res = m ∪ resource)).
  - by rewrite (left_id_L ∅ (∪)).
  - intros k v m res _ ->. by rewrite insert_union_l.
Qed.

(** [put] on a resource that exists: the body is parsed, the parsed
    values are set on the resource and the commit flushes them as one
    UPDATE of its row. *)
Lemma put_found (sel : Sel) (req : Request) (db : DB) (t : Table)
    (i : nat) (r : Row) (tr : Trace) :
  db !! q_table (query self sel) = Some t →
  list_find (λ r, q_where (query self sel) r) (rows t) = Some (i, r) →
  put self sel req {| session := fresh db; trace := tr |}
  = match reqparse.parse_args (parser self) req tr with
    | (Ret update, tr') =>
        (lift_session commit ;;; ret (Dict (as_dict self (setattr_items r update))))
          {| session := {| committed := db; txn := Some db; new := [];
                           dirty := [(q_table (query self sel), i, setattr_items r update)] |};
             trace := tr' |}
    | (Raise e, tr') => (Raise e, {| session := in_txn (fresh db) db; trace := tr' |})
    end.
Proof.
  intros Hdb Hfind. unfold put, bind at 1, lift_session at 1. simpl.
  rewrite (first_some _ _ _ _ _ _ Hdb Hfind).
  unfold bind at 1, lift_trace. simpl.
  by destruct (reqparse.parse_args (parser self) req tr) as [[update|e] tr'].
Qed.

(** C8: an update that returns has written the row of the resource and
    nothing else; the attributes of the resource that the schema does
    not declare are as before the commit; and under a schema with the
    single field [x] the resource differs from what it was in [x]
    only. *)
Theorem put_changes_declared_only (sel : Sel) (req : Request) (db : DB) (t : Table)
    (i : nat) (r : Row) (tr : Trace) (resp : response) (w' : World) :
  db !! q_table (query self sel) = Some t →
  list_find (λ r, q_where (query self sel) r) (rows t) = Some (i, r) →
  put self sel req {| session := fresh db; trace := tr |} = (Ret resp, w') →
  ∃ r' : Row,
    resp = Dict (as_dict self r')
    ∧ session w'
      = fresh (<[q_table (query self sel) := with_rows t (<[i := r']> (rows t))]> db)
    ∧ (∀ a, a ∉ reqparse.arg_name <$> parser self → r' !! a = r !! a)
    ∧ (∀ x kw, parser self = RequestParser.declare [(x, kw)] → ∃ v, r' = <[x := v]> r).
Proof.
  intros Hdb Hfind. rewrite (put_found _ _ _ _ _ _ _ Hdb Hfind).
  destruct (reqparse.parse_args (parser self) req tr) as [[update|e] tr'] eqn:Hparse; [|done].
  unfold bind, lift_session, ret. simpl.
  rewrite commit_dirty_one. unfold db_update. rewrite Hdb.
  destruct (_ && _); [|done].
  intros [= <- <-]. exists (setattr_items r update). simpl.
  split; [done|]. split; [done|]. split.
  - intros a Ha. rewrite setattr_items_union.
    apply lookup_union_r.
    by rewrite (parse_args_from_other _ _ _ _ _ _ a Hparse Ha).
  - intros x kw Hp. rewrite Hp in Hparse.
    assert (Hx : ∃ a, RequestParser.declare [(x, kw)] = [a] ∧ reqparse.arg_name a = x).
    { unfold RequestParser.declare, RequestParser.add_argument, reqparse.add_argument.
      simpl. destruct (reqparse.kw_type kw); eauto. }
    destruct Hx as (a & Ha & <-). rewrite Ha in Hparse.
    unfold reqparse.parse_args in Hparse. simpl in Hparse. unfold bind, ret in Hparse.
    destruct (reqparse.parse a req tr) as [[v|e] tr1]; [|done].
    injection Hparse as <- _. exists v.
    rewrite setattr_items_union, insert_empty. by rewrite <-insert_union_singleton_l.
Qed.

(** C10: [put] on a resource that exists sets every declared field.
    Whenever the body parses, the resource that goes to the commit
    holds, under each declared name, the parsed value, and that value
    is [None] for a name absent from the body.  With an empty body and
    a schema of optional fields the body always parses, and the
    resource that goes to the commit has [None] under every declared
    name and its former attributes elsewhere. *)
Theorem put_writes_every_declared_field (sel : Sel) (req : Request) (db : DB)
    (t : Table) (i : nat) (r : Row) (tr : Trace) :
  db !! q_table (query self sel) = Some t →
  list_find (λ r, q_where (query self sel) r) (rows t) = Some (i, r) →
  let w := {| session := fresh db; trace := tr |} in
  let before_commit (r' : Row) (tr' : Trace) :=
    {| session := {| committed := db; txn := Some db; new := [];
                     dirty := [(q_table (query self sel), i, r')] |};
       trace := tr' |} in
  (∀ update tr', reqparse.parse_args (parser self) req tr = (Ret update, tr') →
     let r' := setattr_items r update in
     put self sel req w
       = (lift_session commit ;;; ret (Dict (as_dict self r'))) (before_commit r' tr')
     ∧ (∀ n, n ∈ reqparse.arg_name <$> parser self →
          is_Some (update !! n) ∧ r' !! n = update !! n)
     ∧ (∀ n, n ∈ reqparse.arg_name <$> parser self → json req !! n = None →
          r' !! n = Some PNone))
  ∧ (json req = ∅ → Forall (λ a, reqparse.arg_required a = false) (parser self) →
     ∃ r' : Row,
       put self sel req w
         = (lift_session commit ;;; ret (Dict (as_dict self r'))) (before_commit r' tr)
       ∧ (∀ n, n ∈ reqparse.arg_name <$> parser self → r' !! n = Some PNone)
       ∧ (∀ a, a ∉ reqparse.arg_name <$> parser self → r' !! a = r !! a)).
Proof.
  intros Hdb Hfind w before_commit.
  assert (Hgen : ∀ update tr',
    reqparse.parse_args (parser self) req tr = (Ret update, tr') →
    put self sel req w
      = (lift_session commit ;;; ret (Dict (as_dict self (setattr_items r update))))
          (before_commit (setattr_items r update) tr')).
  { intros update tr' Hparse. unfold w.
    by rewrite (put_found _ _ _ _ _ _ _ Hdb Hfind), Hparse. }
  split.
  - intros update tr' Hparse r'. split; [by apply Hgen|]. split.
    + intros n Hn.
      destruct (parse_args_from_bound _ _ _ _ _ _ n Hparse Hn) as [v Hv].
      split; [by eauto|]. unfold r'. rewrite setattr_items_union.
      rewrite Hv. by apply lookup_union_Some_l.
    + intros n Hn Habs. unfold r'. rewrite setattr_items_union.
      apply lookup_union_Some_l.
      by apply (parse_args_from_absent _ _ _ _ _ _ n Hparse Hn).
  - intros Hreq Hopt.
    destruct (parse_args_from_empty (parser self) req ∅ tr Hreq Hopt) as [update Hparse].
    exists (setattr_items r update). split; [by apply Hgen|]. split.
    + intros n Hn. rewrite setattr_items_union. apply lookup_union_Some_l.
      apply (parse_args_from_absent _ _ _ _ _ _ n Hparse Hn).
      by rewrite Hreq.
    + intros a Ha. rewrite setattr_items_union. apply lookup_union_r.
      by rewrite (parse_args_from_other _ _ _ _ _ _ a Hparse Ha).
Qed.

End single_resource_claims.

(** No quest has the id 12.  The body of the update would not
    validate, and is not looked at. *)
Lemma missing_resource_is_404_witness :
  (SimpleResource.get Sample.Quest (PInt 12) (start Sample.db)).1
    = Ret (Response "" 404)
  ∧ (SimpleResource.put Sample.Quest (PInt 12)
       (Sample.request_of [("points", PStr "many")]) (start Sample.db)).1
    = Ret (Response "" 404)
  ∧ (SimpleResource.delete Sample.Quest (PInt 12) (start Sample.db)).1
    = Ret (Response "" 404).
Proof.
  assert (Hdb : Sample.db !! "quests" = Some Sample.quests) by reflexivity.
  assert (Hnone : Forall (λ r, bool_decide (r !! "id" = Some (PInt 12)) = false)
                    (sqlalchemy.rows Sample.quests)).
  { repeat constructor. }
  destruct (missing_resource_is_404 Sample.Quest (PInt 12)
              (Sample.request_of [("points", PStr "many")])
              Sample.db Sample.quests [] Hdb Hnone) as (Hget & Hput & Hdel).
  unfold start. by rewrite Hget, Hput, Hdel.
Defined.

(** The quest 10, updated with [{points: 5}] under the schema that
    declares [points] only: its points become 5, its other attributes
    stay, and so does the other quest. *)
Lemma put_changes_declared_only_witness :
  ∃ r' : gmap string pyval,
    r' !! "name" = Some (PStr "rocks")
    ∧ r' !! "mission_id" = Some (PInt 1)
    ∧ ∃ v, r' = <["points" := v]> (Sample.quest 10 1 "rocks" 3).
Proof.
  destruct (SimpleResource.put Sample.Quest (PInt 10)
              (Sample.request_of [("points", PInt 5)])
              {| session := sqlalchemy.fresh Sample.db; trace := [] |})
    as [o w'] eqn:Hput.
  assert (Ho : ∃ resp, o = Ret resp).
  { vm_compute in Hput. injection Hput as <- _. eauto. }
  destruct Ho as [resp ->].
  destruct (put_changes_declared_only Sample.Quest (PInt 10)
              (Sample.request_of [("points", PInt 5)]) Sample.db Sample.quests
              0 (Sample.quest 10 1 "rocks" 3) [] resp w' eq_refl eq_refl Hput)
    as (r' & _ & _ & Hframe & Hx).
  exists r'. split; [|split].
  - rewrite (Hframe "name"); [reflexivity|].
    intros [Heq|Hin]%elem_of_cons; [discriminate Heq | by apply elem_of_nil in Hin].
  - rewrite (Hframe "mission_id"); [reflexivity|].
    intros [Heq|Hin]%elem_of_cons; [discriminate Heq | by apply elem_of_nil in Hin].
  - exact (Hx "points" _ eq_refl).
Defined.

Lemma quest_points_updated :
  ((λ w, (λ t, sqlalchemy.rows t) <$> sqlalchemy.committed (session w) !! "quests")
     (SimpleResource.put Sample.Quest (PInt 10)
        (Sample.request_of [("points", PInt 5)]) (start Sample.db)).2)
  = Some [Sample.quest 10 1 "rocks" 5; Sample.quest 11 1 "dust" 4].
Proof. by vm_compute. Qed.

(** An update of the quest 10 with an empty body: its points, the only
    declared field, go to the commit as [None]. *)
Lemma put_writes_every_declared_field_witness :
  ∃ r' : gmap string pyval,
    r' !! "points" = Some PNone ∧ r' !! "name" = Some (PStr "rocks").
Proof.
  destruct (proj2 (put_writes_every_declared_field Sample.Quest (PInt 10)
              (Sample.request_of []) Sample.db Sample.quests
              0 (Sample.quest 10 1 "rocks" 3) [] eq_refl eq_refl) eq_refl)
    as (r' & _ & Hnull & Hframe).
  - repeat constructor.
  - exists r'. split.
    + apply Hnull. by apply elem_of_cons; left.
    + rewrite (Hframe "name"); [reflexivity|].
      intros [Heq|Hin]%elem_of_cons; [discriminate Heq | by apply elem_of_nil in Hin].
Defined.

Lemma quest_points_nulled :
  ((λ w, (λ t, sqlalchemy.rows t) <$> sqlalchemy.committed (session w) !! "quests")
     (SimpleResource.put Sample.Quest (PInt 10) (Sample.request_of []) (start Sample.db)).2)
  = Some [<["points" := PNone]> (Sample.quest 10 1 "rocks" 3); Sample.quest 11 1 "dust" 4].
Proof. by vm_compute. Qed.

(** ** Creation of resources *)

Section create_claims.
Import sqlalchemy.

(** [add] then [commit] in the session a request starts with is one
    INSERT. *)
Lemma add_commit_fresh (db : DB) tbl (r : Row) (tr : Trace) :
  (lift_session (add tbl r) ;;; lift_session commit)
    {| session := fresh db; trace := tr |}
  = match db_insert db tbl r with
    | Ret db' => (Ret (), {| session := fresh db'; trace := tr |})
    | Raise e => (Raise e, {| session := fresh db; trace := tr |})
    end.
Proof.
  unfold bind, lift_session, add. simpl. rewrite commit_new_one. simpl.
  by destruct (db_insert db tbl r).
Qed.





(** C7, on the creator: [SimpleCreate.post] has no handler around its
    insert.  Creating a quest under a name that is taken makes the
    storage layer reject the insert, and the integrity error leaves
    [post] as it was raised. *)
Theorem create_propagates_integrity_error :
  SimpleCreate.post Sample.QuestCreate (Sample.request_of [("name", PStr "rocks")])
    (start Sample.db)
  = (Raise (Exn IntegrityError "constraint failed"), start Sample.db).
Proof. by vm_compute. Qed.

(** In general: whatever the storage layer raises on the insert is what
    [SimpleCreate.post] raises. *)
Lemma create_propagates (self : SimpleCreate.class) (req : Request) (db : DB)
    (tr tr' : Trace) (args : gmap string pyval) (e : exn) :
  reqparse.parse_args (SimpleCreate.parser self) req tr = (Ret args, tr') →
  db_insert db (SimpleCreate.resource_type self)
    (<["creator_id" := current_user_id req]> args) = Raise e →
  SimpleCreate.post self req {| session := fresh db; trace := tr |}
  = (Raise e, {| session := fresh db; trace := tr' |}).
Proof.
  intros Hparse Hins. unfold SimpleCreate.post, bind at 1, lift_trace. simpl.
  rewrite Hparse. unfold bind, lift_session, add. simpl.
  rewrite commit_new_one. simpl. by rewrite Hins.
Qed.

(** The update of a single resource has no handler either: renaming
    the quest 10 to the name of the quest 11 raises. *)
Lemma update_propagates_integrity_error :
  (SimpleResource.put Sample.QuestName (PInt 10)
     (Sample.request_of [("name", PStr "dust")]) (start Sample.db)).1
  = Raise (Exn IntegrityError "constraint failed").
Proof. by vm_compute. Qed.

End create_claims.

(** ** The many-to-many link controller *)

Section link_claims.
Import sqlalchemy ManyToManyLink.
Context (self : class).

(** A row agrees with the inserted row on the pair of columns exactly
    when it is an association row of the pair. *)
Lemma link_row_key (L R : pyval) (r : Row) :
  column_of (left_id_name self) ≠ column_of (right_id_name self) →
  key_of [column_of (left_id_name self); column_of (right_id_name self)] r = key_of [column_of (left_id_name self); column_of (right_id_name self)] (link_row self L R)
  ↔ r !! column_of (left_id_name self) = Some L ∧ r !! column_of (right_id_name self) = Some R.
Proof.
  intros Hne. unfold key_of, link_row. simpl.
  rewrite lookup_insert_ne by done. rewrite !lookup_insert_eq.
  split; [by intros [= -> ->] | by intros [-> ->]].
Qed.

Lemma unique_conflict (L R : pyval) (db : DB) (t : Table) :
  column_of (left_id_name self) ≠ column_of (right_id_name self) → db !! join_table self = Some t → [column_of (left_id_name self); column_of (right_id_name self)] ∈ uniques t →
  links self L R db ≠ [] →
  unique_ok t (rows t) (link_row self L R) = false.
Proof.
  intros Hne Hdb Hu Hlinks. unfold links in Hlinks. rewrite Hdb in Hlinks.
  destruct (unique_ok t (rows t) (link_row self L R)) eqn:Hok; [|done].
  exfalso. apply Is_true_true_2, forallb_True in Hok.
  rewrite Forall_forall in Hok. specialize (Hok _ Hu). simpl in Hok.
  apply negb_True in Hok. apply Hok, existb_True, Exists_exists.
  destruct (filter _ (rows t)) as [|r l] eqn:Hf; [done|].
  assert (Hr : r ∈ filter (λ r, r !! column_of (left_id_name self) = Some L ∧ r !! column_of (right_id_name self) = Some R) (rows t)).
  { rewrite Hf. by apply elem_of_cons; left. }
  apply list_elem_of_filter in Hr as [Hr Hin].
  exists r. split; [done|]. by apply bool_decide_spec, link_row_key.
Qed.

Lemma unique_free (L R : pyval) (db : DB) (t : Table) :
  column_of (left_id_name self) ≠ column_of (right_id_name self) → db !! join_table self = Some t → uniques t = [[column_of (left_id_name self); column_of (right_id_name self)]] →
  links self L R db = [] →
  unique_ok t (rows t) (link_row self L R) = true.
Proof.
  intros Hne Hdb Hu Hlinks. unfold links in Hlinks. rewrite Hdb in Hlinks.
  unfold unique_ok. rewrite Hu. simpl. rewrite andb_true_r.
  apply Is_true_true_1, negb_True. intros Hex.
  apply existb_True, Exists_exists in Hex as (r & Hin & Hkey).
  apply bool_decide_spec, link_row_key in Hkey; [|done].
  apply (filter_nil_not_elem_of _ _ r Hlinks); done.
Qed.

(** [put] in the session a request starts with: the row is inserted
    and committed when the storage layer accepts it; when it does not,
    the integrity error is caught and nothing is committed. *)
Lemma put_fresh (L R : pyval) (db : DB) (t : Table) (tr : Trace) :
  db !! join_table self = Some t →
  put self L R {| session := fresh db; trace := tr |}
  = if unique_ok t (rows t) (link_row self L R) && foreign_ok db t (link_row self L R)
    then (Ret Nothing,
          {| session := fresh (<[join_table self :=
                                   with_rows t (rows t ++ [link_row self L R])]> db);
             trace := tr |})
    else (Ret Nothing, {| session := in_txn (fresh db) db; trace := tr |}).
Proof.
  intros Hdb. unfold put, try_except, bind, lift_session, execute_insert. simpl.
  rewrite view_fresh. unfold db_insert. rewrite Hdb.
  by destruct (_ && _).
Qed.

Lemma links_after_insert (L R : pyval) (db : DB) (t : Table) :
  column_of (left_id_name self) ≠ column_of (right_id_name self) → db !! join_table self = Some t →
  links self L R (<[join_table self := with_rows t (rows t ++ [link_row self L R])]> db)
  = links self L R db ++ [link_row self L R].
Proof.
  intros Hne Hdb. unfold links. rewrite lookup_insert_eq, Hdb. simpl.
  rewrite filter_app. f_equal. rewrite filter_cons_True; [done|].
  by apply (link_row_key L R).
Qed.

(** C6 (amended): linking a pair that is linked already succeeds, the
    integrity error of the unique constraint being absorbed, and leaves
    the join table as it was; and after two requests that link the same
    pair there is exactly one association row for it, when the ids pass
    the foreign keys of the join table. *)
Theorem link_is_idempotent (L R : pyval) (db : DB) (t : Table) (tr : Trace) :
  column_of (left_id_name self) ≠ column_of (right_id_name self) →
  db !! join_table self = Some t →
  [column_of (left_id_name self); column_of (right_id_name self)] ∈ uniques t →
  (links self L R db ≠ [] →
     put self L R {| session := fresh db; trace := tr |}
     = (Ret Nothing, {| session := in_txn (fresh db) db; trace := tr |}))
  ∧ (uniques t = [[column_of (left_id_name self); column_of (right_id_name self)]] →
     foreign_ok db t (link_row self L R) = true →
     (List.length (links self L R db) ≤ 1)%nat →
     ∃ w1 : World,
       put self L R {| session := fresh db; trace := tr |} = (Ret Nothing, w1)
       ∧ let db1 := committed (session w1) in
         put self L R {| session := fresh db1; trace := trace w1 |}
         = (Ret Nothing, {| session := in_txn (fresh db1) db1; trace := trace w1 |})
         ∧ List.length (links self L R db1) = 1).
Proof.
  intros Hne Hdb Hu.
  assert (Hagain : ∀ (db' : DB) t' tr', db' !! join_table self = Some t' →
    [column_of (left_id_name self); column_of (right_id_name self)] ∈ uniques t' → links self L R db' ≠ [] →
    put self L R {| session := fresh db'; trace := tr' |}
    = (Ret Nothing, {| session := in_txn (fresh db') db'; trace := tr' |})).
  { intros db' t' tr' Hdb' Hu' Hl. rewrite (put_fresh _ _ _ _ _ Hdb').
    by rewrite (unique_conflict L R db' t' Hne Hdb' Hu' Hl). }
  split; [by apply (Hagain db t tr)|].
  intros Hu1 Hfk Hlen.
  destruct (links self L R db) as [|r0 l] eqn:Hl.
  - eexists. split.
    + rewrite (put_fresh _ _ _ _ _ Hdb).
      by rewrite (unique_free L R db t Hne Hdb Hu1 Hl), Hfk.
    + simpl. split.
      * apply (Hagain _ (with_rows t (rows t ++ [link_row self L R]))).
        -- by rewrite lookup_insert_eq.
        -- done.
        -- rewrite links_after_insert by done. by destruct (links self L R db).
      * rewrite links_after_insert by done. by rewrite Hl.
  - eexists. split.
    + apply (Hagain db t tr); [done|done|by rewrite Hl].
    + simpl. split.
      * apply (Hagain db t tr); [done|done|by rewrite Hl].
      * rewrite Hl. simpl in *. destruct l; [done|simpl in *; lia].
Qed.

(** [delete] in the session a request starts with: the rows that the
    WHERE clause selects are deleted and the transaction is committed,
    whatever their number. *)
Lemma delete_fresh (L R : pyval) (db : DB) (t : Table) (tr : Trace) :
  db !! join_table self = Some t →
  let cond := eval (and_ (attr_eq (left_id_name self) L) (attr_eq (right_id_name self) R)) in
  delete self L R {| session := fresh db; trace := tr |}
  = (Ret (if bool_decide (List.length (filter (λ r, cond r) (rows t)) = 0)
          then Response "" 404 else Nothing),
     {| session := fresh (<[join_table self :=
                              with_rows t (filter (λ r, ¬ cond r) (rows t))]> db);
        trace := tr |}).
Proof.
  intros Hdb cond. unfold delete, bind, lift_session, execute_delete. simpl.
  rewrite view_fresh. unfold db_delete. rewrite Hdb. simpl.
  by destruct (bool_decide _).
Qed.

(** With the column objects, the WHERE clause selects the association
    rows of the pair: they are the rows deleted, the answer is 404
    exactly when there were none, and the commit is made in both
    cases. *)
Lemma delete_by_column (L R : pyval) (db : DB) (t : Table) (tr : Trace) cl cr :
  left_id_name self = Column cl → right_id_name self = Column cr →
  db !! join_table self = Some t →
  delete self L R {| session := fresh db; trace := tr |}
  = (Ret (match links self L R db with [] => Response "" 404 | _ => Nothing end),
     {| session := fresh (<[join_table self := with_rows t
          (filter (λ r, ¬ (r !! cl = Some L ∧ r !! cr = Some R)) (rows t))]> db);
        trace := tr |}).
Proof.
  intros Hl Hr Hdb. rewrite (delete_fresh _ _ _ _ _ Hdb).
  unfold links. rewrite Hdb, Hl, Hr. simpl.
  assert (Heq : ∀ r : Row,
    Is_true (bool_decide (r !! cl = Some L) && bool_decide (r !! cr = Some R))
    ↔ r !! cl = Some L ∧ r !! cr = Some R).
  { intros r. by rewrite andb_True, !bool_decide_spec. }
  rewrite (list_filter_iff _ (λ r, r !! cl = Some L ∧ r !! cr = Some R)) by done.
  rewrite (list_filter_iff (λ r, ¬ _) (λ r, ¬ (r !! cl = Some L ∧ r !! cr = Some R))).
  - by destruct (filter _ (rows t)).
  - intros r. by rewrite Heq.
Qed.

(** With the names of the columns, each comparison is made by Python
    between a string and an id: as soon as one of them is false, no row
    is selected, the answer is 404 and the join table is as before,
    whether the pair was linked or not. *)
Lemma delete_by_name (L R : pyval) (db : DB) (t : Table) (tr : Trace) nl nr :
  left_id_name self = Name nl → right_id_name self = Name nr →
  py_eq (PStr nl) L && py_eq (PStr nr) R = false →
  db !! join_table self = Some t →
  delete self L R {| session := fresh db; trace := tr |}
  = (Ret (Response "" 404), {| session := fresh db; trace := tr |}).
Proof.
  intros Hl Hr Hcmp Hdb. rewrite (delete_fresh _ _ _ _ _ Hdb).
  rewrite Hl, Hr.
  rewrite filter_none, filter_all; simpl.
  - by rewrite with_rows_id, insert_id.
  - apply Forall_forall. intros r _. exact (Is_true_false_2 _ Hcmp).
  - apply Forall_forall. intros r _. exact (Is_true_false_2 _ Hcmp).
Qed.

End link_claims.

Lemma link_is_idempotent_witness :
  ∃ w1 : World,
    ManyToManyLink.put Sample.UserQuests (PInt 1) (PInt 3) (start Sample.db)
      = (Ret Nothing, w1)
    ∧ let db1 := sqlalchemy.committed (session w1) in
      ManyToManyLink.put Sample.UserQuests (PInt 1) (PInt 3)
        {| session := sqlalchemy.fresh db1; trace := trace w1 |}
      = (Ret Nothing, {| session := sqlalchemy.in_txn (sqlalchemy.fresh db1) db1;
                         trace := trace w1 |})
      ∧ List.length (ManyToManyLink.links Sample.UserQuests (PInt 1) (PInt 3) db1) = 1.
Proof.
  refine (proj2 (link_is_idempotent Sample.UserQuests (PInt 1) (PInt 3)
            Sample.db Sample.user_quests [] _ eq_refl _) eq_refl eq_refl _).
  - by intros [= ].
  - by apply list_elem_of_singleton.
  - vm_compute. lia.
Defined.

(** C6, as stated: on a join table whose foreign key requires the
    quest to exist, the user 1 is linked twice to the quest 99, which
    does not exist.  Both requests are answered with success, nothing
    is committed, and no association row exists for the pair. *)
Lemma link_twice_rejected_pair :
  ManyToManyLink.put Sample.UserQuests (PInt 1) (PInt 99) (start Sample.guarded_db)
    = (Ret Nothing,
       {| session := sqlalchemy.in_txn (sqlalchemy.fresh Sample.guarded_db)
                       Sample.guarded_db;
          trace := [] |})
  ∧ (ManyToManyLink.put Sample.UserQuests (PInt 1) (PInt 99)
       (start (sqlalchemy.committed (session
          (ManyToManyLink.put Sample.UserQuests (PInt 1) (PInt 99)
             (start Sample.guarded_db)).2)))).1
    = Ret Nothing
  ∧ ManyToManyLink.links Sample.UserQuests (PInt 1) (PInt 99)
      (sqlalchemy.committed (session
         (ManyToManyLink.put Sample.UserQuests (PInt 1) (PInt 99)
            (start (sqlalchemy.committed (session
               (ManyToManyLink.put Sample.UserQuests (PInt 1) (PInt 99)
                  (start Sample.guarded_db)).2)))).2))
    = [].
Proof. by vm_compute. Qed.

(** C4, on the link of [Sample.UserQuests], declared with the names of
    its columns: the pair (1, 2) is linked, yet unlinking it is answered
    with 404 and its association row is still there after the commit. *)
Theorem unlink_by_name_deletes_nothing :
  ManyToManyLink.links Sample.UserQuests (PInt 1) (PInt 2) Sample.db = [Sample.link 1 2]
  ∧ ManyToManyLink.delete Sample.UserQuests (PInt 1) (PInt 2) (start Sample.db)
    = (Ret (Response "" 404), start Sample.db)
  ∧ ManyToManyLink.links Sample.UserQuests (PInt 1) (PInt 2)
      (sqlalchemy.committed (session
         (ManyToManyLink.delete Sample.UserQuests (PInt 1) (PInt 2)
            (start Sample.db)).2))
    = [Sample.link 1 2].
Proof. by vm_compute. Qed.

(** The same request on the link declared with the column objects
    removes the row. *)
Lemma unlink_by_column_deletes :
  ManyToManyLink.delete Sample.UserQuestsByColumn (PInt 1) (PInt 2) (start Sample.db)
  = (Ret Nothing,
     start (<["user_quests" := sqlalchemy.with_rows Sample.user_quests []]> Sample.db)).
Proof. by vm_compute. Qed.

(** ** More on the argument parser *)

Section parser_extras.
Import reqparse.

(** X1: a value that is not null goes through the conversion function
    as if it had not been wrapped, for a required field as for an
    optional one: the field is bound to what the function returns, and
    what it raises is reported as a 400 on the field with the message
    of the exception. *)
Theorem typed_value_is_converted (F : string) (kw : Kwargs) (type_func : pytype)
    (req : Request) (tr : Trace) (v : pyval) :
  kw_type kw = Some type_func →
  json req !! F = Some v →
  v ≠ PNone →
  parse_args (RequestParser.declare [(F, kw)]) req tr
  = match call_type type_func v tr with
    | (Ret x, tr') => (Ret {[F := x]}, tr')
    | (Raise e, tr') => (Raise (BadRequest F (exn_str e)), tr')
    end.
Proof.
  intros Hty Hv Hnn.
  unfold RequestParser.declare, RequestParser.add_argument, add_argument. simpl.
  rewrite Hty. unfold parse_args. simpl. unfold bind, parse. simpl. rewrite Hv.
  unfold try_except_Exception, convert. simpl.
  destruct (default false (kw_required kw)); simpl;
    unfold RequestParser.new_type_func_required, RequestParser.new_type_func_optional;
    (destruct v; [done|..]); simpl;
    by destruct (call_type type_func _ tr) as [[x|e] tr'].
Qed.

Lemma typed_value_is_converted_witness :
  parse_args
    (RequestParser.declare
       [("age", Sample.required_of (Some (Function Sample.checked_int)))])
    (Sample.request_of [("age", PStr "five")]) []
  = (Raise (BadRequest "age" "invalid literal"), [("checked_int", PStr "five")])
  ∧ parse_args
    (RequestParser.declare
       [("age", Sample.optional_of (Some (Function Sample.checked_int)))])
    (Sample.request_of [("age", PBool true)]) []
  = (Ret {["age" := PInt 1]}, [("checked_int", PBool true)]).
Proof.
  split.
  - refine (typed_value_is_converted "age"
              (Sample.required_of (Some (Function Sample.checked_int)))
              (Function Sample.checked_int)
              (Sample.request_of [("age", PStr "five")]) [] (PStr "five")
              eq_refl eq_refl _).
    by intros [= ].
  - refine (typed_value_is_converted "age"
              (Sample.optional_of (Some (Function Sample.checked_int)))
              (Function Sample.checked_int)
              (Sample.request_of [("age", PBool true)]) [] (PBool true)
              eq_refl eq_refl _).
    by intros [= ].
Defined.

(** X2: a field with a conversion function that is absent from the
    body never reaches the wrapper.  When it is required the parse
    fails with the message of the base parser for a missing parameter,
    not with "Required value may not be null"; when it is optional it
    is bound to [None].  The conversion function is not run in either
    case. *)
Theorem typed_absent_field (F : string) (kw : Kwargs) (type_func : pytype)
    (req : Request) (tr : Trace) :
  kw_type kw = Some type_func →
  json req !! F = None →
  parse_args (RequestParser.declare [(F, kw)]) req tr
  = if default false (kw_required kw)
    then (Raise (BadRequest F missing_required), tr)
    else (Ret {[F := PNone]}, tr).
Proof.
  intros Hty Habs.
  unfold RequestParser.declare, RequestParser.add_argument, add_argument. simpl.
  rewrite Hty. unfold parse_args. simpl. unfold bind, parse. simpl. rewrite Habs.
  by destruct (default false (kw_required kw)).
Qed.

Lemma typed_absent_field_witness :
  parse_args
    (RequestParser.declare
       [("age", Sample.required_of (Some (Function Sample.checked_int)))])
    (Sample.request_of [("name", PStr "Alice")]) []
  = (Raise (BadRequest "age" missing_required), [])
  ∧ parse_args
    (RequestParser.declare
       [("age", Sample.optional_of (Some (Function Sample.checked_int)))])
    (Sample.request_of [("name", PStr "Alice")]) []
  = (Ret {["age" := PNone]}, []).
Proof.
  split.
  - exact (typed_absent_field "age"
             (Sample.required_of (Some (Function Sample.checked_int)))
             (Function Sample.checked_int)
             (Sample.request_of [("name", PStr "Alice")]) [] eq_refl eq_refl).
  - exact (typed_absent_field "age"
             (Sample.optional_of (Some (Function Sample.checked_int)))
             (Function Sample.checked_int)
             (Sample.request_of [("name", PStr "Alice")]) [] eq_refl eq_refl).
Defined.

(** The argument that one declaration adds parses alike under two
    conversion functions that agree off [None]. *)
Lemma declared_alike (F : string) (kw kw' : Kwargs) (req : Request) :
  kw_required kw = kw_required kw' →
  (kw_type kw = None ∧ kw_type kw' = None
   ∨ ∃ t t', kw_type kw = Some t ∧ kw_type kw' = Some t'
       ∧ ∀ v tr, v ≠ PNone → call_type t v tr = call_type t' v tr) →
  ∀ ns tr,
    parse_args_from (RequestParser.declare [(F, kw)]) req ns tr
    = parse_args_from (RequestParser.declare [(F, kw')]) req ns tr.
Proof.
  intros Hreq Hty ns tr.
  unfold RequestParser.declare, RequestParser.add_argument, add_argument. simpl.
  destruct Hty as [[Hn Hn']|(t & t' & -> & -> & Hagree)].
  { rewrite Hn, Hn'. simpl. by rewrite Hn, Hn', Hreq. }
  simpl. rewrite Hreq. unfold bind, parse. simpl.
  destruct (json req !! F) as [v|]; [|done].
  unfold try_except_Exception, convert. simpl.
  destruct (default false (kw_required kw')); simpl;
    unfold RequestParser.new_type_func_required, RequestParser.new_type_func_optional;
    (destruct v; [done|..]); simpl; by rewrite Hagree.
Qed.

(** X3: no conversion function of a schema is ever called on [None].
    Two schemas with the same names and required flags, whose
    conversion functions agree on every value other than [None] and
    may do anything on [None], parse every body alike: same result,
    same error, same trace. *)
Theorem conversions_never_see_None (decls decls' : list (string * Kwargs))
    (req : Request) (tr : Trace) :
  Forall2 (λ d d',
    d.1 = d'.1 ∧ kw_required d.2 = kw_required d'.2
    ∧ (kw_type d.2 = None ∧ kw_type d'.2 = None
       ∨ ∃ t t', kw_type d.2 = Some t ∧ kw_type d'.2 = Some t'
           ∧ ∀ v tr, v ≠ PNone → call_type t v tr = call_type t' v tr))
    decls decls' →
  parse_args (RequestParser.declare decls) req tr
  = parse_args (RequestParser.declare decls') req tr.
Proof.
  intros Hall. unfold parse_args. generalize (∅ : gmap string pyval). revert tr.
  induction Hall as [|[F kw] [F' kw'] decls decls' (HF & Hreq & Hty) _ IH]; [done|].
  intros tr ns. simpl in HF. subst F'.
  rewrite (declare_cons (F, kw)), (declare_cons (F, kw')), !parse_args_from_app.
  rewrite (declared_alike F kw kw' req Hreq Hty).
  destruct (parse_args_from _ req ns tr) as [[ns'|e] tr']; [apply IH|done].
Qed.

End parser_extras.

(** [checked_int] and a validator that returns 0 on [None] instead of
    raising are not told apart by any body. *)
Lemma conversions_never_see_None_witness :
  reqparse.parse_args (RequestParser.declare Sample.person_schema)
    (Sample.request_of [("name", PStr "Alice"); ("age", PNone)]) []
  = reqparse.parse_args (RequestParser.declare Sample.lenient_person_schema)
    (Sample.request_of [("name", PStr "Alice"); ("age", PNone)]) [].
Proof.
  apply conversions_never_see_None.
  constructor; [|constructor; [|constructor]].
  - split; [reflexivity|]. split; [reflexivity|].
    right. exists TextType, TextType. by repeat split.
  - split; [reflexivity|]. split; [reflexivity|].
    right. exists (Function Sample.checked_int), (Function Sample.lenient_int).
    split; [reflexivity|]. split; [reflexivity|].
    intros v tr Hv. by destruct v.
Defined.

(** ** More on the single-resource controller *)

Section single_resource_extras.
Import sqlalchemy SimpleResource.
Context {Sel : Type} (self : class Sel).

(** X4: [get] only reads.  On a table that exists it raises nothing,
    leaves the database and the trace as they were, answers 404 when no
    row matches the selector, and otherwise serializes the first row
    that matches, whatever rows match after it. *)
Theorem get_reads_first_match (sel : Sel) (db : DB) (t : Table) (tr : Trace) :
  db !! q_table (query self sel) = Some t →
  ∃ resp,
    get self sel {| session := fresh db; trace := tr |}
      = (Ret resp, {| session := in_txn (fresh db) db; trace := tr |})
    ∧ (Forall (λ r, q_where (query self sel) r = false) (rows t) →
         resp = Response "" 404)
    ∧ (∀ before r after, rows t = before ++ r :: after →
         Forall (λ r', q_where (query self sel) r' = false) before →
         q_where (query self sel) r = true →
         resp = Dict (as_dict self r)).
Proof.
  intros Hdb. unfold get, bind, lift_session, first. simpl.
  rewrite view_fresh, Hdb.
  destruct (list_find _ (rows t)) as [[i r]|] eqn:Hfind; eexists; (split; [done|]).
  - apply list_find_Some in Hfind as (Hi & Hr & Hmin). split.
    + intros Hnone. rewrite Forall_forall in Hnone.
      rewrite (Hnone r) in Hr; [done|]. by eapply list_elem_of_lookup_2.
    + intros before r0 after Hrows Hbefore Hr0.
      assert (Hlen : i = List.length before).
      { destruct (decide (i < List.length before)%nat) as [Hlt|Hge].
        - rewrite Hrows, lookup_app_l in Hi by done.
          rewrite Forall_forall in Hbefore.
          rewrite (Hbefore r) in Hr; [done|]. by eapply list_elem_of_lookup_2.
        - destruct (decide (i = List.length before)) as [|Hne]; [done|].
          exfalso. apply (Hmin (List.length before) r0); [|lia|by rewrite Hr0].
          rewrite Hrows. by rewrite list_lookup_middle. }
      subst i. rewrite Hrows, list_lookup_middle in Hi by done.
      by injection Hi as ->.
  - apply list_find_None in Hfind. split; [done|].
    intros before r0 after Hrows _ Hr0. rewrite Forall_forall in Hfind.
    exfalso. apply (Hfind r0); [|by rewrite Hr0].
    rewrite Hrows. apply elem_of_app; right. by apply elem_of_cons; left.
Qed.

Lemma delete_evaluated (sel : Sel) (db : DB) (t : Table) (tr : Trace) :
  db !! q_table (query self sel) = Some t →
  delete self sel {| session := fresh db; trace := tr |}
  = if existsb
         (referenced (<[q_table (query self sel) :=
             with_rows t (filter (λ r, ¬ q_where (query self sel) r) (rows t))]> db)
            (q_table (query self sel)))
         (filter (λ r, q_where (query self sel) r) (rows t))
    then (Raise (Exn IntegrityError "constraint failed"),
          {| session := in_txn (fresh db) db; trace := tr |})
    else (Ret (if bool_decide
                    (List.length (filter (λ r, q_where (query self sel) r) (rows t)) = 0)
               then Response "" 404 else Nothing),
          {| session := fresh (<[q_table (query self sel) :=
               with_rows t (filter (λ r, ¬ q_where (query self sel) r) (rows t))]> db);
             trace := tr |}).
Proof.
  intros Hdb. unfold delete, bind, lift_session, query_delete, db_delete_restrict.
  cbn [session trace]. rewrite view_fresh, Hdb. cbv zeta.
  destruct (existsb _ _); [done|]. simpl. by destruct (bool_decide _).
Qed.

Lemma filter_out_none_left (cond : Row → bool) (l : list Row) :
  Forall (λ r, cond r = false) (filter (λ r, ¬ cond r) l).
Proof.
  apply Forall_forall. intros r [Hr _]%list_elem_of_filter.
  by apply Is_true_false_1.
Qed.

(** X5: [delete] removes every row that matches the selector, not only
    the first, unless the storage layer rejects the statement.  When no
    row that would remain refers to a row matched, the rows matched are
    all deleted, the other rows keep their order and the other tables
    are as they are, the transaction is committed, and the answer is
    the empty success when a row matched and 404 when none did.  When
    such a reference exists, [delete] raises the integrity error with
    nothing deleted and nothing committed. *)
Theorem delete_removes_every_match (sel : Sel) (db : DB) (t : Table) (tr : Trace) :
  db !! q_table (query self sel) = Some t →
  let kept := filter (λ r, ¬ q_where (query self sel) r) (rows t) in
  let db' := <[q_table (query self sel) := with_rows t kept]> db in
  let rejected :=
    existsb (referenced db' (q_table (query self sel)))
      (filter (λ r, q_where (query self sel) r) (rows t)) in
  (rejected = false →
     ∃ resp,
       delete self sel {| session := fresh db; trace := tr |}
         = (Ret resp, {| session := fresh db'; trace := tr |})
       ∧ Forall (λ r, q_where (query self sel) r = false) kept
       ∧ (Forall (λ r, q_where (query self sel) r = false) (rows t) →
            resp = Response "" 404)
       ∧ (Exists (λ r, q_where (query self sel) r = true) (rows t) → resp = Nothing))
  ∧ (rejected = true →
       delete self sel {| session := fresh db; trace := tr |}
       = (Raise (Exn IntegrityError "constraint failed"),
          {| session := in_txn (fresh db) db; trace := tr |})).
Proof.
  intros Hdb kept db' rejected. split; intros Hrej.
  - exists (if bool_decide
               (List.length (filter (λ r, q_where (query self sel) r) (rows t)) = 0)
            then Response "" 404 else Nothing).
    split; [|split; [|split]].
    + rewrite (delete_evaluated sel db t tr Hdb). fold kept db' rejected.
      by rewrite Hrej.
    + apply filter_out_none_left.
    + intros Hnone. rewrite (filter_none (λ r, q_where (query self sel) r)); [done|].
      eapply Forall_impl; [exact Hnone|]. simpl. intros r Hr.
      by apply Is_true_false_2.
    + intros (r & Hin & Hr)%Exists_exists.
      destruct (filter (λ r, q_where (query self sel) r) (rows t))
        as [|r0 l] eqn:Hf; [|done].
      exfalso. apply (filter_nil_not_elem_of _ _ r Hf); [by rewrite Hr|done].
  - rewrite (delete_evaluated sel db t tr Hdb). fold kept db' rejected.
    by rewrite Hrej.
Qed.

(** X6: a resource that was deleted is gone: when [delete] returns,
    whatever it answered, a [get] with the same selector in the next
    request answers 404. *)
Theorem delete_then_get (sel : Sel) (db : DB) (t : Table) (tr : Trace)
    (resp : response) (w1 : World) :
  db !! q_table (query self sel) = Some t →
  delete self sel {| session := fresh db; trace := tr |} = (Ret resp, w1) →
  (get self sel {| session := fresh (committed (session w1)); trace := trace w1 |}).1
  = Ret (Response "" 404).
Proof.
  intros Hdb. rewrite (delete_evaluated sel db t tr Hdb).
  destruct (existsb _ _); [done|]. intros [= _ <-]. simpl.
  pose proof (filter_out_none_left (q_where (query self sel)) (rows t)) as Hgone.
  unfold get, bind, lift_session. simpl.
  rewrite (first_none _ _ _
    (with_rows t (filter (λ r, ¬ q_where (query self sel) r) (rows t))));
    [done|by rewrite lookup_insert_eq|exact Hgone].
Qed.

(** Replacing the first match by a row that matches keeps it the first
    match. *)
Lemma list_find_insert {A} (P : A → Prop) `{!∀ x, Decision (P x)}
    (l : list A) (i : nat) (x y : A) :
  list_find P l = Some (i, x) → P y → list_find P (<[i := y]> l) = Some (i, y).
Proof.
  intros (Hi & _ & Hmin)%list_find_Some Hy. apply list_find_Some.
  split; [|split; [done|]].
  - apply list_lookup_insert_eq. by eapply lookup_lt_Some.
  - intros j z Hj Hlt. rewrite list_lookup_insert_ne in Hj by lia. by eapply Hmin.
Qed.

(** X7: an update can be read back.  When [put] returns and the
    updated resource still matches the selector, a [get] with the same
    selector in the next request returns the response [put] gave. *)
Theorem put_then_get (sel : Sel) (req : Request) (db : DB) (t : Table)
    (i : nat) (r : Row) (tr tr' : Trace) (update : gmap string pyval)
    (resp : response) (w1 : World) :
  db !! q_table (query self sel) = Some t →
  list_find (λ r, q_where (query self sel) r) (rows t) = Some (i, r) →
  reqparse.parse_args (parser self) req tr = (Ret update, tr') →
  q_where (query self sel) (setattr_items r update) = true →
  put self sel req {| session := fresh db; trace := tr |} = (Ret resp, w1) →
  (get self sel {| session := fresh (committed (session w1)); trace := trace w1 |}).1
  = Ret resp.
Proof.
  intros Hdb Hfind Hparse Hstill.
  rewrite (put_found self _ _ _ _ _ _ _ Hdb Hfind), Hparse.
  unfold bind, lift_session, ret. simpl.
  rewrite commit_dirty_one. unfold db_update. rewrite Hdb.
  destruct (_ && _); [|done].
  intros [= <- <-]. simpl. unfold get, bind, lift_session. simpl.
  rewrite (first_some _ _ _
    (with_rows t (<[i := setattr_items r update]> (rows t))) i (setattr_items r update));
    [done|by rewrite lookup_insert_eq|].
  simpl. apply (list_find_insert _ _ _ r); [done|by rewrite Hstill].
Qed.

(** X8: an update whose body does not validate changes nothing.  On a
    resource that exists, [put] raises the 400 of the parser, which
    names a declared field, and the database is as it was. *)
Theorem put_invalid_body (sel : Sel) (req : Request) (db : DB) (t : Table)
    (i : nat) (r : Row) (tr tr' : Trace) (e : exn) :
  db !! q_table (query self sel) = Some t →
  list_find (λ r, q_where (query self sel) r) (rows t) = Some (i, r) →
  reqparse.parse_args (parser self) req tr = (Raise e, tr') →
  put self sel req {| session := fresh db; trace := tr |}
    = (Raise e, {| session := in_txn (fresh db) db; trace := tr' |})
  ∧ ∃ field msg, e = BadRequest field msg
      ∧ field ∈ reqparse.arg_name <$> parser self.
Proof.
  intros Hdb Hfind Hparse. split.
  - by rewrite (put_found self _ _ _ _ _ _ _ Hdb Hfind), Hparse.
  - by apply (parse_args_from_raises_400 _ _ _ _ _ _ Hparse).
Qed.

(** X9: an update that the storage layer rejects is not caught.  When
    the updated resource would agree with another row on a unique group
    of columns, [put] raises the integrity error and the database is as
    it was. *)
Theorem put_rejected_update (sel : Sel) (req : Request) (db : DB) (t : Table)
    (i : nat) (r : Row) (tr tr' : Trace) (update : gmap string pyval) :
  db !! q_table (query self sel) = Some t →
  list_find (λ r, q_where (query self sel) r) (rows t) = Some (i, r) →
  reqparse.parse_args (parser self) req tr = (Ret update, tr') →
  unique_ok t (base.delete i (rows t)) (setattr_items r update) = false →
  put self sel req {| session := fresh db; trace := tr |}
  = (Raise (Exn IntegrityError "constraint failed"),
     {| session := fresh db; trace := tr' |}).
Proof.
  intros Hdb Hfind Hparse Hdup.
  rewrite (put_found self _ _ _ _ _ _ _ Hdb Hfind), Hparse.
  unfold bind, lift_session. simpl.
  rewrite commit_dirty_one. unfold db_update. by rewrite Hdb, Hdup.
Qed.

End single_resource_extras.

(** The quest 10 is read; the quest 12 does not exist. *)
Lemma get_reads_first_match_witness :
  ∃ resp,
    SimpleResource.get Sample.Quest (PInt 10) (start Sample.db)
      = (Ret resp, {| session := sqlalchemy.in_txn (sqlalchemy.fresh Sample.db) Sample.db;
                      trace := [] |})
    ∧ resp = Dict (Sample.quest 10 1 "rocks" 3).
Proof.
  destruct (get_reads_first_match Sample.Quest (PInt 10) Sample.db Sample.quests []
              eq_refl) as (resp & Hget & _ & Hfirst).
  exists resp. split; [exact Hget|].
  apply (Hfirst [] (Sample.quest 10 1 "rocks" 3) [Sample.quest 11 1 "dust" 4]);
    [reflexivity | constructor | reflexivity].
Defined.

(** The quest 10 is deleted from the sample database, where nothing
    refers to it; it is not where a link of the join table does. *)
Lemma delete_removes_every_match_witness :
  (∃ resp,
     SimpleResource.delete Sample.Quest (PInt 10) (start Sample.db)
       = (Ret resp,
          start (<["quests" := sqlalchemy.with_rows Sample.quests
                      [Sample.quest 11 1 "dust" 4]]> Sample.db))
     ∧ resp = Nothing)
  ∧ SimpleResource.delete Sample.Quest (PInt 10) (start Sample.guarded_db)
    = (Raise (Exn IntegrityError "constraint failed"),
       {| session := sqlalchemy.in_txn (sqlalchemy.fresh Sample.guarded_db)
                       Sample.guarded_db;
          trace := [] |}).
Proof.
  split.
  - destruct (proj1 (delete_removes_every_match Sample.Quest (PInt 10) Sample.db
                Sample.quests [] eq_refl)) as (resp & Hdel & _ & _ & Hsome);
      [by vm_compute|].
    exists resp. split; [exact Hdel|].
    apply Hsome. by apply Exists_cons_hd.
  - apply (proj2 (delete_removes_every_match Sample.Quest (PInt 10) Sample.guarded_db
             Sample.quests [] eq_refl)).
    by vm_compute.
Defined.

Lemma delete_then_get_witness :
  (SimpleResource.get Sample.Quest (PInt 10)
     (start (<["quests" := sqlalchemy.with_rows Sample.quests
                 [Sample.quest 11 1 "dust" 4]]> Sample.db))).1
  = Ret (Response "" 404).
Proof.
  refine (delete_then_get Sample.Quest (PInt 10) Sample.db Sample.quests [] Nothing
            (start (<["quests" := sqlalchemy.with_rows Sample.quests
                        [Sample.quest 11 1 "dust" 4]]> Sample.db))
            eq_refl _).
  by vm_compute.
Defined.

(** The quest 10 after its points were set to 5, as [put] returned it
    and as the next [get] returns it. *)
Lemma put_then_get_witness :
  (SimpleResource.get Sample.Quest (PInt 10)
     (start (<["quests" := sqlalchemy.with_rows Sample.quests
                 [Sample.quest 10 1 "rocks" 5; Sample.quest 11 1 "dust" 4]]> Sample.db))).1
  = Ret (Dict (Sample.quest 10 1 "rocks" 5)).
Proof.
  refine (put_then_get Sample.Quest (PInt 10) (Sample.request_of [("points", PInt 5)])
            Sample.db Sample.quests 0 (Sample.quest 10 1 "rocks" 3) []
            [("checked_int", PInt 5)] {["points" := PInt 5]}
            (Dict (Sample.quest 10 1 "rocks" 5))
            {| session := sqlalchemy.fresh (<["quests" := sqlalchemy.with_rows Sample.quests
                 [Sample.quest 10 1 "rocks" 5; Sample.quest 11 1 "dust" 4]]> Sample.db);
               trace := [("checked_int", PInt 5)] |}
            eq_refl eq_refl _ _ _); by vm_compute.
Defined.

Lemma put_invalid_body_witness :
  SimpleResource.put Sample.Quest (PInt 10)
    (Sample.request_of [("points", PStr "many")]) (start Sample.db)
  = (Raise (BadRequest "points" "invalid literal"),
     {| session := sqlalchemy.in_txn (sqlalchemy.fresh Sample.db) Sample.db;
        trace := [("checked_int", PStr "many")] |}).
Proof.
  refine (proj1 (put_invalid_body Sample.Quest (PInt 10)
            (Sample.request_of [("points", PStr "many")]) Sample.db Sample.quests
            0 (Sample.quest 10 1 "rocks" 3) [] [("checked_int", PStr "many")]
            (BadRequest "points" "invalid literal") eq_refl eq_refl _)).
  by vm_compute.
Defined.

(** Renaming the quest 10 to the name of the quest 11. *)
Lemma put_rejected_update_witness :
  SimpleResource.put Sample.QuestName (PInt 10)
    (Sample.request_of [("name", PStr "dust")]) (start Sample.db)
  = (Raise (Exn IntegrityError "constraint failed"), start Sample.db).
Proof.
  refine (put_rejected_update Sample.QuestName (PInt 10)
            (Sample.request_of [("name", PStr "dust")]) Sample.db Sample.quests
            0 (Sample.quest 10 1 "rocks" 3) [] [] {["name" := PStr "dust"]}
            eq_refl eq_refl _ _); by vm_compute.
Defined.

(** ** More on the creation of resources *)

Section create_extras.
Import sqlalchemy.

(** X10: a resource created by [SimpleCreate.post] belongs to the
    caller.  When the body parses and the storage layer accepts the
    row, the row is the parsed fields with [creator_id] set to the
    caller, whatever [creator_id] the body gave; it is appended to the
    table of the resource type and committed, and its serialization is
    returned. *)
Theorem create_records_caller (self : SimpleCreate.class) (req : Request) (db : DB)
    (t : Table) (tr tr' : Trace) (args : gmap string pyval) :
  reqparse.parse_args (SimpleCreate.parser self) req tr = (Ret args, tr') →
  db !! SimpleCreate.resource_type self = Some t →
  unique_ok t (rows t) (<["creator_id" := current_user_id req]> args)
    && foreign_ok db t (<["creator_id" := current_user_id req]> args) = true →
  ∃ row : Row,
    SimpleCreate.post self req {| session := fresh db; trace := tr |}
      = (Ret (Dict (SimpleCreate.as_dict self row)),
         {| session := fresh (<[SimpleCreate.resource_type self :=
                                  with_rows t (rows t ++ [row])]> db);
            trace := tr' |})
    ∧ row !! "creator_id" = Some (current_user_id req)
    ∧ ∀ k, k ≠ "creator_id" → row !! k = args !! k.
Proof.
  intros Hparse Hdb Hok. exists (<["creator_id" := current_user_id req]> args).
  split; [|split].
  - unfold SimpleCreate.post, bind at 1, lift_trace. simpl. rewrite Hparse.
    unfold bind, lift_session, add. simpl. rewrite commit_new_one. simpl.
    unfold db_insert. by rewrite Hdb, Hok.
  - by rewrite lookup_insert_eq.
  - intros k Hk. by rewrite lookup_insert_ne.
Qed.

(** X11: a creation whose body does not validate inserts nothing:
    [SimpleCreate.post] and [ManyToOneLink.post] raise the 400 of the
    parser and leave the session as it was, before the identity of the
    caller or the parent is looked at. *)
Theorem create_invalid_body (simple : SimpleCreate.class) (child : ManyToOneLink.class)
    (parent_id : pyval) (req : Request) (w : World) :
  (∀ e tr', reqparse.parse_args (SimpleCreate.parser simple) req (trace w) = (Raise e, tr') →
     SimpleCreate.post simple req w = (Raise e, {| session := session w; trace := tr' |})
     ∧ ∃ field msg, e = BadRequest field msg)
  ∧ (∀ e tr', reqparse.parse_args (ManyToOneLink.parser child) req (trace w) = (Raise e, tr') →
     ManyToOneLink.post child parent_id req w
       = (Raise e, {| session := session w; trace := tr' |})
     ∧ ∃ field msg, e = BadRequest field msg).
Proof.
  split; intros e tr' Hparse.
  - split.
    + unfold SimpleCreate.post, bind, lift_trace. by rewrite Hparse.
    + destruct (parse_args_from_raises_400 _ _ _ _ _ _ Hparse) as (f & m & -> & _). eauto.
  - split.
    + unfold ManyToOneLink.post, ManyToOneLink.build_args, bind, lift_trace.
      by rewrite Hparse.
    + destruct (parse_args_from_raises_400 _ _ _ _ _ _ Hparse) as (f & m & -> & _). eauto.
Qed.

(** What [build_args] returns when the body parses. *)
Lemma build_args_parsed (self : ManyToOneLink.class) (parent_id : pyval)
    (req : Request) (w : World) (ns : gmap string pyval) (tr' : Trace) :
  reqparse.parse_args (ManyToOneLink.parser self) req (trace w) = (Ret ns, tr') →
  ManyToOneLink.build_args self parent_id req w
  = (Ret (<[ManyToOneLink.parent_id_name self := parent_id]>
            (<["creator_id" := current_user_id req]> ns)),
     {| session := session w; trace := tr' |}).
Proof.
  intros Hparse. unfold ManyToOneLink.build_args, bind, lift_trace. by rewrite Hparse.
Qed.

(** X12: the body cannot choose the parent or the creator of a child.
    In the arguments [build_args] returns, the parent-reference field
    is the [parent_id] of the URL and the other fields are those
    parsed; [creator_id] is the caller, except when the
    parent-reference field is [creator_id] itself, where the
    [parent_id], written last, takes its place. *)
Theorem build_args_overrides (self : ManyToOneLink.class) (parent_id : pyval)
    (req : Request) (w : World) (ns : gmap string pyval) (tr' : Trace) :
  reqparse.parse_args (ManyToOneLink.parser self) req (trace w) = (Ret ns, tr') →
  ∃ args : gmap string pyval,
    ManyToOneLink.build_args self parent_id req w
      = (Ret args, {| session := session w; trace := tr' |})
    ∧ args !! ManyToOneLink.parent_id_name self = Some parent_id
    ∧ args !! "creator_id"
      = Some (if decide (ManyToOneLink.parent_id_name self = "creator_id")
              then parent_id else current_user_id req)
    ∧ ∀ k, k ≠ ManyToOneLink.parent_id_name self → k ≠ "creator_id" →
        args !! k = ns !! k.
Proof.
  intros Hparse. eexists. split; [by apply build_args_parsed|].
  split; [by rewrite lookup_insert_eq|]. split.
  - destruct (decide _) as [->|Hne].
    + by rewrite lookup_insert_eq.
    + rewrite lookup_insert_ne by done. by rewrite lookup_insert_eq.
  - intros k Hk1 Hk2. by rewrite !lookup_insert_ne.
Qed.

(** X13: [ManyToOneLink.post] answers 404 for every insert the storage
    layer rejects, not only for a missing parent: a child that repeats
    a unique value under a parent that exists gets the same 404, and
    nothing is committed. *)
Theorem rejected_child_is_404 (self : ManyToOneLink.class) (parent_id : pyval)
    (req : Request) (db : DB) (t : Table) (tr tr' : Trace) (ns : gmap string pyval) :
  reqparse.parse_args (ManyToOneLink.parser self) req tr = (Ret ns, tr') →
  db !! ManyToOneLink.resource_type self = Some t →
  unique_ok t (rows t)
      (<[ManyToOneLink.parent_id_name self := parent_id]>
         (<["creator_id" := current_user_id req]> ns))
    && foreign_ok db t
      (<[ManyToOneLink.parent_id_name self := parent_id]>
         (<["creator_id" := current_user_id req]> ns)) = false →
  ManyToOneLink.post self parent_id req {| session := fresh db; trace := tr |}
  = (Ret (Response "" 404), {| session := fresh db; trace := tr' |}).
Proof.
  intros Hparse Hdb Hbad. unfold ManyToOneLink.post, bind at 1.
  rewrite (build_args_parsed self parent_id req
    {| session := fresh db; trace := tr |} ns tr' Hparse). simpl.
  unfold ManyToOneLink.create_resource, try_except.
  rewrite add_commit_fresh. unfold db_insert. by rewrite Hdb, Hbad.
Qed.

(** What [ManyToOneLink.get] returns in the session a request starts
    with. *)
Lemma children_evaluated (self : ManyToOneLink.class) (parent_id : pyval)
    (db : DB) (pt t : Table) (tr : Trace) :
  db !! ManyToOneLink.parent_resource_type self = Some pt →
  db !! ManyToOneLink.resource_type self = Some t →
  ManyToOneLink.get self parent_id {| session := fresh db; trace := tr |}
  = (Ret (match list_find (λ p : Row, bool_decide (p !! "id" = Some parent_id))
                  (rows pt) with
          | Some _ =>
              Children (ManyToOneLink.child_link_name self)
                (ManyToOneLink.as_dict self <$>
                   filter (λ child : Row,
                     child !! ManyToOneLink.parent_id_name self = Some parent_id) (rows t))
          | None => Response "" 404
          end),
     {| session := in_txn (fresh db) db; trace := tr |}).
Proof.
  intros Hp Hc. unfold ManyToOneLink.get, bind, lift_session, first. simpl.
  rewrite view_fresh, Hp.
  destruct (list_find _ (rows pt)) as [[i p]|]; [|done].
  unfold view. simpl. by rewrite Hc.
Qed.

(** X14: [ManyToOneLink.get] only reads.  It answers 404 when no parent
    has the id, also when rows of the child table still refer to it;
    for a parent that exists it returns, under the name of the link,
    the serializations of the rows that refer to the parent, in the
    order of the table, and no others. *)
Theorem children_of_parent (self : ManyToOneLink.class) (parent_id : pyval)
    (db : DB) (pt t : Table) (tr : Trace) :
  db !! ManyToOneLink.parent_resource_type self = Some pt →
  db !! ManyToOneLink.resource_type self = Some t →
  ∃ resp,
    ManyToOneLink.get self parent_id {| session := fresh db; trace := tr |}
      = (Ret resp, {| session := in_txn (fresh db) db; trace := tr |})
    ∧ (Forall (λ p : Row, p !! "id" ≠ Some parent_id) (rows pt) →
         resp = Response "" 404)
    ∧ (Exists (λ p : Row, p !! "id" = Some parent_id) (rows pt) →
         resp = Children (ManyToOneLink.child_link_name self)
                  (ManyToOneLink.as_dict self <$>
                     filter (λ child : Row,
                       child !! ManyToOneLink.parent_id_name self = Some parent_id)
                       (rows t))).
Proof.
  intros Hp Hc. eexists. split; [by apply children_evaluated|]. split.
  - intros Hnone.
    destruct (list_find _ (rows pt)) as [[i p]|] eqn:Hfind; [|done].
    apply list_find_Some in Hfind as (Hi & Hid & _).
    apply bool_decide_spec in Hid. rewrite Forall_forall in Hnone.
    exfalso. apply (Hnone p); [|done]. by eapply list_elem_of_lookup_2.
  - intros (p & Hin & Hid)%Exists_exists.
    destruct (list_find _ (rows pt)) as [[i p']|] eqn:Hfind; [done|].
    apply list_find_None in Hfind. rewrite Forall_forall in Hfind.
    exfalso. apply (Hfind p Hin). by apply bool_decide_spec.
Qed.

(** X15: a child that was created is listed.  When [post] under a
    parent that exists is accepted, the [get] of that parent in the
    next request lists the children it had, followed by the
    serialization [post] returned. *)
Theorem created_child_is_listed (self : ManyToOneLink.class) (parent_id : pyval)
    (req : Request) (db : DB) (pt t : Table) (tr tr' : Trace)
    (ns : gmap string pyval) :
  ManyToOneLink.resource_type self ≠ ManyToOneLink.parent_resource_type self →
  db !! ManyToOneLink.parent_resource_type self = Some pt →
  db !! ManyToOneLink.resource_type self = Some t →
  Exists (λ p : Row, p !! "id" = Some parent_id) (rows pt) →
  reqparse.parse_args (ManyToOneLink.parser self) req tr = (Ret ns, tr') →
  unique_ok t (rows t)
      (<[ManyToOneLink.parent_id_name self := parent_id]>
         (<["creator_id" := current_user_id req]> ns))
    && foreign_ok db t
      (<[ManyToOneLink.parent_id_name self := parent_id]>
         (<["creator_id" := current_user_id req]> ns)) = true →
  ∃ (child : Row) (w1 : World),
    ManyToOneLink.post self parent_id req {| session := fresh db; trace := tr |}
      = (Ret (Dict (ManyToOneLink.as_dict self child)), w1)
    ∧ (ManyToOneLink.get self parent_id
         {| session := fresh (committed (session w1)); trace := trace w1 |}).1
      = Ret (Children (ManyToOneLink.child_link_name self)
               ((ManyToOneLink.as_dict self <$>
                   filter (λ c : Row,
                     c !! ManyToOneLink.parent_id_name self = Some parent_id) (rows t))
                ++ [ManyToOneLink.as_dict self child])).
Proof.
  intros Hne Hp Hc Hparent Hparse Hok.
  eexists _, _. split.
  - unfold ManyToOneLink.post, bind at 1.
    rewrite (build_args_parsed self parent_id req
    {| session := fresh db; trace := tr |} ns tr' Hparse). simpl.
    unfold ManyToOneLink.create_resource, try_except.
    rewrite add_commit_fresh. unfold db_insert. by rewrite Hc, Hok.
  - simpl.
    rewrite (children_evaluated self parent_id _ pt
      (with_rows t (rows t ++ [<[ManyToOneLink.parent_id_name self := parent_id]>
         (<["creator_id" := current_user_id req]> ns)])));
      [|by rewrite lookup_insert_ne|by rewrite lookup_insert_eq].
    simpl. apply Exists_exists in Hparent as (p & Hin & Hid).
    destruct (list_find _ (rows pt)) as [[i p']|] eqn:Hfind.
    + rewrite filter_app, fmap_app. do 3 f_equal.
      rewrite filter_cons_True; [done|]. by rewrite lookup_insert_eq.
    + apply list_find_None in Hfind. rewrite Forall_forall in Hfind.
      exfalso. apply (Hfind p Hin). by apply bool_decide_spec.
Qed.

End create_extras.

(** The caller 7 creates a quest; the body says it was 99. *)
Lemma create_records_caller_witness :
  ∃ row : gmap string pyval,
    SimpleCreate.post Sample.QuestCreateOpen
      (Sample.request_of [("name", PStr "ice"); ("creator_id", PInt 99)])
      (start Sample.db)
    = (Ret (Dict row),
       {| session := sqlalchemy.fresh (<["quests" := sqlalchemy.with_rows Sample.quests
            (sqlalchemy.rows Sample.quests ++ [row])]> Sample.db);
          trace := [("checked_int", PInt 99)] |})
    ∧ row !! "creator_id" = Some (PInt 7).
Proof.
  destruct (create_records_caller Sample.QuestCreateOpen
              (Sample.request_of [("name", PStr "ice"); ("creator_id", PInt 99)])
              Sample.db Sample.quests [] [("checked_int", PInt 99)]
              (<["creator_id" := PInt 99]> {["name" := PStr "ice"]}))
    as (row & Hpost & Hcreator & _); [by vm_compute..|].
  exists row. split; [exact Hpost | exact Hcreator].
Defined.

Lemma create_invalid_body_witness :
  SimpleCreate.post Sample.QuestCreate (Sample.request_of []) (start Sample.db)
    = (Raise (BadRequest "name" reqparse.missing_required), start Sample.db)
  ∧ ManyToOneLink.post Sample.MissionQuests (PInt 1) (Sample.request_of [])
      (start Sample.db)
    = (Raise (BadRequest "name" reqparse.missing_required), start Sample.db).
Proof.
  split.
  - exact (proj1 (proj1 (create_invalid_body Sample.QuestCreate Sample.MissionQuests
             (PInt 1) (Sample.request_of []) (start Sample.db)) _ [] eq_refl)).
  - exact (proj1 (proj2 (create_invalid_body Sample.QuestCreate Sample.MissionQuests
             (PInt 1) (Sample.request_of []) (start Sample.db)) _ [] eq_refl)).
Defined.

Lemma build_args_overrides_witness :
  ∃ args : gmap string pyval,
    ManyToOneLink.build_args Sample.MissionQuests (PInt 1)
      (Sample.request_of [("name", PStr "a"); ("mission_id", PInt 5)]) (start Sample.db)
    = (Ret args, start Sample.db)
    ∧ args !! "mission_id" = Some (PInt 1)
    ∧ args !! "creator_id" = Some (PInt 7)
    ∧ args !! "name" = Some (PStr "a").
Proof.
  destruct (build_args_overrides Sample.MissionQuests (PInt 1)
              (Sample.request_of [("name", PStr "a"); ("mission_id", PInt 5)])
              (start Sample.db) {["name" := PStr "a"]} [] eq_refl)
    as (args & Hargs & Hparent & Hcreator & Hother).
  exists args. split; [exact Hargs|]. split; [exact Hparent|]. split; [exact Hcreator|].
  rewrite (Hother "name"); [reflexivity| |]; by intros [= ].
Defined.

(** A second quest named "rocks" under the mission 1, which exists. *)
Lemma rejected_child_is_404_witness :
  ManyToOneLink.post Sample.MissionQuests (PInt 1)
    (Sample.request_of [("name", PStr "rocks")]) (start Sample.db)
  = (Ret (Response "" 404), start Sample.db).
Proof.
  refine (rejected_child_is_404 Sample.MissionQuests (PInt 1)
            (Sample.request_of [("name", PStr "rocks")]) Sample.db Sample.quests
            [] [] {["name" := PStr "rocks"]} eq_refl eq_refl _).
  by vm_compute.
Defined.

Lemma children_of_parent_witness :
  ∃ resp,
    ManyToOneLink.get Sample.MissionQuests (PInt 1) (start Sample.db)
      = (Ret resp, {| session := sqlalchemy.in_txn (sqlalchemy.fresh Sample.db) Sample.db;
                      trace := [] |})
    ∧ resp = Children "quests" [Sample.quest 10 1 "rocks" 3; Sample.quest 11 1 "dust" 4].
Proof.
  destruct (children_of_parent Sample.MissionQuests (PInt 1) Sample.db
              Sample.missions Sample.quests [] eq_refl eq_refl)
    as (resp & Hget & _ & Hsome).
  exists resp. split; [exact Hget|].
  rewrite Hsome; [reflexivity|]. by apply Exists_cons_hd.
Defined.

Lemma created_child_is_listed_witness :
  ∃ (child : gmap string pyval) (w1 : World),
    ManyToOneLink.post Sample.MissionQuests (PInt 1)
      (Sample.request_of [("name", PStr "a")]) (start Sample.db)
    = (Ret (Dict child), w1)
    ∧ (ManyToOneLink.get Sample.MissionQuests (PInt 1)
         {| session := sqlalchemy.fresh (sqlalchemy.committed (session w1));
            trace := trace w1 |}).1
      = Ret (Children "quests"
               [Sample.quest 10 1 "rocks" 3; Sample.quest 11 1 "dust" 4; child]).
Proof.
  refine (created_child_is_listed Sample.MissionQuests (PInt 1)
            (Sample.request_of [("name", PStr "a")]) Sample.db
            Sample.missions Sample.quests [] [] {["name" := PStr "a"]}
            _ eq_refl eq_refl _ eq_refl _).
  - by intros [= ].
  - by apply Exists_cons_hd.
  - by vm_compute.
Defined.

(** ** More on the many-to-many link controller *)

Section link_extras.
Import sqlalchemy ManyToManyLink.
Context (self : class).

(** X16: [put] answers with success whatever the storage layer says.
    On a join table that exists it raises nothing; the table is then as
    it was or has the row of the pair appended, no row being removed or
    changed; and whenever a constraint rejects the row, the foreign key
    of an id that does not exist as much as the unique pair, the answer
    is the same success with nothing committed. *)
Theorem put_always_succeeds (L R : pyval) (db : DB) (t : Table) (tr : Trace) :
  db !! join_table self = Some t →
  ∃ w1 : World,
    put self L R {| session := fresh db; trace := tr |} = (Ret Nothing, w1)
    ∧ trace w1 = tr
    ∧ (committed (session w1) = db
       ∨ committed (session w1)
         = <[join_table self := with_rows t (rows t ++ [link_row self L R])]> db)
    ∧ (unique_ok t (rows t) (link_row self L R)
         && foreign_ok db t (link_row self L R) = false →
       committed (session w1) = db).
Proof.
  intros Hdb. rewrite (put_fresh self L R db t tr Hdb).
  destruct (_ && _); eexists; (split; [done|]); simpl.
  - split; [done|]. split; [by right|done].
  - split; [done|]. split; [by left|done].
Qed.

(** X17: with the column objects in [left_id_name] and
    [right_id_name], [delete] removes the association rows of the pair
    and only them.  It answers 404 exactly when the pair was not
    linked and with the empty success otherwise; afterwards no
    association row of the pair is left, the rows of the other pairs
    and the other tables are as they were, and the transaction is
    committed in both cases. *)
Theorem unlink_by_column (L R : pyval) (db : DB) (t : Table) (tr : Trace)
    (cl cr : string) :
  left_id_name self = Column cl → right_id_name self = Column cr →
  db !! join_table self = Some t →
  ∃ (resp : response) (db' : DB),
    delete self L R {| session := fresh db; trace := tr |}
      = (Ret resp, {| session := fresh db'; trace := tr |})
    ∧ (resp = Response "" 404 ↔ links self L R db = [])
    ∧ (resp = Nothing ↔ links self L R db ≠ [])
    ∧ links self L R db' = []
    ∧ db' !! join_table self
      = Some (with_rows t
          (filter (λ r, ¬ (r !! cl = Some L ∧ r !! cr = Some R)) (rows t)))
    ∧ ∀ other, other ≠ join_table self → db' !! other = db !! other.
Proof.
  intros Hl Hr Hdb. eexists _, _.
  split; [exact (delete_by_column self L R db t tr cl cr Hl Hr Hdb)|].
  split; [|split; [|split; [|split]]].
  - by destruct (links self L R db).
  - by destruct (links self L R db).
  - unfold links. rewrite lookup_insert_eq, Hl, Hr. simpl.
    apply filter_none, Forall_forall. by intros r [Hn _]%list_elem_of_filter.
  - by rewrite lookup_insert_eq.
  - intros other Hother. by rewrite lookup_insert_ne.
Qed.

(** X18: with the names of the columns in [left_id_name] and
    [right_id_name], the WHERE clause of [delete] does not look at the
    rows.  When both ids are the very strings that name the columns,
    every row of the join table is deleted; in every other case no row
    is, and the answer is 404.  The row of the pair alone is never what
    is removed from a table that holds other rows. *)
Theorem delete_by_name_all_or_nothing (L R : pyval) (db : DB) (t : Table)
    (tr : Trace) (nl nr : string) :
  left_id_name self = Name nl → right_id_name self = Name nr →
  db !! join_table self = Some t →
  delete self L R {| session := fresh db; trace := tr |}
  = if py_eq (PStr nl) L && py_eq (PStr nr) R
    then (Ret (match rows t with [] => Response "" 404 | _ => Nothing end),
          {| session := fresh (<[join_table self := with_rows t []]> db); trace := tr |})
    else (Ret (Response "" 404), {| session := fresh db; trace := tr |}).
Proof.
  intros Hl Hr Hdb.
  destruct (py_eq (PStr nl) L && py_eq (PStr nr) R) eqn:Hcmp.
  - rewrite (delete_fresh self _ _ _ _ _ Hdb). rewrite Hl, Hr.
    rewrite filter_all, filter_none; simpl.
    + by destruct (rows t).
    + apply Forall_forall. intros r _ Hn. apply Hn. exact (Is_true_true_2 _ Hcmp).
    + apply Forall_forall. intros r _. exact (Is_true_true_2 _ Hcmp).
  - by apply (delete_by_name self L R db t tr nl nr).
Qed.

(** X19: with the column objects, a pair that was linked can be
    unlinked.  After a [put] of the pair, the [delete] of the pair in
    the next request answers with the empty success, no association
    row of the pair is left, and the rows of the other pairs are those
    the table had. *)
Theorem link_then_unlink (L R : pyval) (db : DB) (t : Table) (tr : Trace)
    (cl cr : string) :
  left_id_name self = Column cl → right_id_name self = Column cr →
  cl ≠ cr →
  db !! join_table self = Some t →
  uniques t = [[cl; cr]] →
  foreign_ok db t (link_row self L R) = true →
  ∃ w1 w2 : World,
    put self L R {| session := fresh db; trace := tr |} = (Ret Nothing, w1)
    ∧ delete self L R {| session := fresh (committed (session w1)); trace := trace w1 |}
      = (Ret Nothing, w2)
    ∧ links self L R (committed (session w2)) = []
    ∧ committed (session w2)
      = <[join_table self := with_rows t
            (filter (λ r, ¬ (r !! cl = Some L ∧ r !! cr = Some R)) (rows t))]> db.
Proof.
  intros Hl Hr Hne Hdb Hu Hfk.
  assert (Hcl : column_of (left_id_name self) = cl) by by rewrite Hl.
  assert (Hcr : column_of (right_id_name self) = cr) by by rewrite Hr.
  assert (Hne' : column_of (left_id_name self) ≠ column_of (right_id_name self))
    by by rewrite Hcl, Hcr.
  assert (Hu' : uniques t = [[column_of (left_id_name self);
                              column_of (right_id_name self)]])
    by by rewrite Hcl, Hcr.
  assert (Hgone : ∀ l : list Row,
    filter (λ r, r !! cl = Some L ∧ r !! cr = Some R)
      (filter (λ r, ¬ (r !! cl = Some L ∧ r !! cr = Some R)) l) = []).
  { intros l. apply filter_none, Forall_forall.
    by intros r [Hn _]%list_elem_of_filter. }
  rewrite (put_fresh self L R db t tr Hdb), Hfk, andb_true_r.
  destruct (unique_ok t (rows t) (link_row self L R)) eqn:Huniq.
  - eexists _, _. split; [done|]. simpl.
    rewrite (delete_by_column self L R _
      (with_rows t (rows t ++ [link_row self L R])) tr cl cr Hl Hr)
      by by rewrite lookup_insert_eq.
    rewrite links_after_insert by done. simpl.
    split; [by destruct (links self L R db)|]. split.
    + unfold links. cbn [committed session fresh].
      rewrite lookup_insert_eq, Hcl, Hcr. simpl. apply Hgone.
    + cbn [committed session fresh]. rewrite insert_insert_eq. do 2 f_equal.
      rewrite filter_app, filter_cons_False, filter_nil, app_nil_r; [done|].
      intros Hn. apply Hn. rewrite <-Hcl, <-Hcr. by apply (link_row_key self L R).
  - assert (Hlinked : links self L R db ≠ []).
    { intros Hnone. by rewrite (unique_free self L R db t Hne' Hdb Hu' Hnone) in Huniq. }
    eexists _, _. split; [done|]. simpl.
    rewrite (delete_by_column self L R db t tr cl cr Hl Hr Hdb).
    split; [by destruct (links self L R db)|]. split; [|done].
    unfold links. cbn [committed session fresh].
    rewrite lookup_insert_eq, Hcl, Hcr. simpl. apply Hgone.
Qed.

End link_extras.

(** The user 1 is linked to the quest 99, which does not exist: the
    answer is a success and no row was added. *)
Lemma put_always_succeeds_witness :
  ∃ w1 : World,
    ManyToManyLink.put Sample.UserQuests (PInt 1) (PInt 99) (start Sample.guarded_db)
      = (Ret Nothing, w1)
    ∧ sqlalchemy.committed (session w1) = Sample.guarded_db.
Proof.
  destruct (put_always_succeeds Sample.UserQuests (PInt 1) (PInt 99)
              Sample.guarded_db Sample.guarded_user_quests [] eq_refl)
    as (w1 & Hput & _ & _ & Hrej).
  exists w1. split; [exact Hput|]. apply Hrej. by vm_compute.
Defined.

(** With the column objects, the pair (1, 2) is unlinked. *)
Lemma unlink_by_column_witness :
  ∃ (resp : response) (db' : gmap string sqlalchemy.Table),
    ManyToManyLink.delete Sample.UserQuestsByColumn (PInt 1) (PInt 2) (start Sample.db)
      = (Ret resp, {| session := sqlalchemy.fresh db'; trace := [] |})
    ∧ resp = Nothing
    ∧ ManyToManyLink.links Sample.UserQuestsByColumn (PInt 1) (PInt 2) db' = [].
Proof.
  destruct (unlink_by_column Sample.UserQuestsByColumn (PInt 1) (PInt 2)
              Sample.db Sample.user_quests [] "user_id" "quest_id"
              eq_refl eq_refl eq_refl)
    as (resp & db' & Hdel & _ & Hsome & Hnone & _).
  exists resp, db'. split; [exact Hdel|]. split; [|exact Hnone].
  apply Hsome. by vm_compute.
Defined.

(** A request to unlink "user_id" from "quest_id" empties the join
    table. *)
Lemma delete_by_name_all_or_nothing_witness :
  ManyToManyLink.delete Sample.UserQuests (PStr "user_id") (PStr "quest_id")
    (start Sample.db)
  = (Ret Nothing,
     start (<["user_quests" := sqlalchemy.with_rows Sample.user_quests []]> Sample.db)).
Proof.
  exact (delete_by_name_all_or_nothing Sample.UserQuests (PStr "user_id")
           (PStr "quest_id") Sample.db Sample.user_quests [] "user_id" "quest_id"
           eq_refl eq_refl eq_refl).
Defined.

Lemma link_then_unlink_witness :
  ∃ w1 w2 : World,
    ManyToManyLink.put Sample.UserQuestsByColumn (PInt 1) (PInt 3) (start Sample.db)
      = (Ret Nothing, w1)
    ∧ ManyToManyLink.delete Sample.UserQuestsByColumn (PInt 1) (PInt 3)
        {| session := sqlalchemy.fresh (sqlalchemy.committed (session w1));
           trace := trace w1 |}
      = (Ret Nothing, w2)
    ∧ ManyToManyLink.links Sample.UserQuestsByColumn (PInt 1) (PInt 3)
        (sqlalchemy.committed (session w2)) = [].
Proof.
  destruct (link_then_unlink Sample.UserQuestsByColumn (PInt 1) (PInt 3)
              Sample.db Sample.user_quests [] "user_id" "quest_id"
              eq_refl eq_refl) as (w1 & w2 & Hput & Hdel & Hnone & _);
    [by intros [= ] | reflexivity | reflexivity | reflexivity |].
  exists w1, w2. split; [exact Hput|]. split; [exact Hdel | exact Hnone].
Defined.
